(** * The CallTx execution context of burrow

    A shallow embedding of [execution/contexts/call_context.go]: the
    three phases [Precheck], [Check] and [Deliver] of [CallContext.Execute],
    written as state-passing functions over the fields of the Go
    [CallContext] that the phases read and write.

    The Go code talks to collaborators that live in other packages
    ([acm/state], [evm], [crypto], [exec], the permission helpers).  They
    are gathered in the class [Collaborators]; every theorem of the
    general part holds for all of them.  A small in-memory instance is
    given afterwards to run the code on concrete transactions. *)

From Stdlib Require Import ZArith String Ascii List Lia.
From Stdlib.Strings Require Import Byte.
From stdpp Require Import base option strings gmap.
Import ListNotations.

Local Open Scope Z_scope.

(** ** Machine integers and bytes *)

(** Go's [uint64]: a [Z] kept in [0, 2^64) by [wrap64] after every
    arithmetic operation. *)
Definition wrap64 (z : Z) : Z := z mod 2 ^ 64.

Definition uint64_sub (a b : Z) : Z := wrap64 (a - b).
Definition uint64_inc (a : Z) : Z := wrap64 (a + 1).

(** [[]byte] *)
Abbreviation Bytes := (list byte).

(** [crypto.Address] is [[20]byte]; it is read here as the 160-bit
    big-endian number it spells. *)
Abbreviation Address := Z.

(** [crypto.ZeroAddress] *)
Definition ZeroAddress : Address := 0.

(** *** [hex.DecodeString] and [crypto.AddressFromHexString] *)

Definition hexDigit (c : ascii) : option N :=
  let n := N_of_ascii c in
  if ((48 <=? n) && (n <=? 57))%N then Some (n - 48)%N
  else if ((65 <=? n) && (n <=? 70))%N then Some (n - 55)%N
  else if ((97 <=? n) && (n <=? 102))%N then Some (n - 87)%N
  else None.

Fixpoint DecodeString (s : string) : option Bytes :=
  match s with
  | EmptyString => Some []
  | String _ EmptyString => None
  | String hi (String lo rest) =>
      match hexDigit hi, hexDigit lo, DecodeString rest with
      | Some h, Some l, Some bs =>
          match Byte.of_N (16 * h + l) with
          | Some b => Some (b :: bs)
          | None => None
          end
      | _, _, _ => None
      end
  end.

Definition AddressFromBytes (bs : Bytes) : option Address :=
  if (length bs =? 20)%nat
  then Some (fold_left (fun acc b => acc * 256 + Z.of_N (Byte.to_N b)) bs 0)
  else None.

(** Both Go functions return [(value, err)]; [Deliver] drops the error,
    so a failed decoding leaves the zero value. *)
Definition AddressFromHexString (s : string) : option Address :=
  match DecodeString s with
  | Some bs => AddressFromBytes bs
  | None => None
  end.

(** ** Errors *)

(** [errors.Code]: the codes this file names, and the others a virtual
    machine may raise. *)
Inductive Code : Type :=
| ErrorCodeInvalidAddress
| ErrorCodeInsufficientFunds
| ErrorCodeReservedAddress
| ErrorCodeOther (n : nat).

(** [errors.Exception]: a code and a message. *)
Record Exception : Type := mkException {
  ExCode : Code;
  ExMessage : string
}.

(** A Go [error] value, by the way it is built in this file. *)
Inductive error : Type :=
| ErrCode (c : Code)            (* an [errors.Code] used as an error *)
| ErrException (e : Exception)  (* [errors.ErrorCodef] *)
| Errorf (msg : string)         (* [fmt.Errorf] *)
| ErrBackend (msg : string).    (* raised by the state backend *)

(** What a Go function with an [error] result hands back. *)
Inductive result (A : Type) : Type :=
| Ok (a : A)
| Err (e : error).
Arguments Ok {A} a.
Arguments Err {A} e.

(** ** Accounts and transactions *)

(** Modelled from the spec: [acm.Account] is declared outside this file;
    the record has the attributes of the spec's data model (address,
    balance, sequence number, code, permission bits). *)
Module Account.
Record t : Type := mk {
  Address : Address;
  Balance : Z;
  Sequence : Z;
  Code : Bytes;
  Permissions : Z
}.
Definition setBalance (b : Z) (a : t) : t :=
  mk (Address a) b (Sequence a) (Code a) (Permissions a).
Definition setSequence (s : Z) (a : t) : t :=
  mk (Address a) (Balance a) s (Code a) (Permissions a).
End Account.

(** [payload.TxInput], the fields read here. *)
Module TxInput.
Record t : Type := mk {
  Address : Address;
  Amount : Z
}.
End TxInput.

(** [payload.CallTx]; [Address = None] is Go's nil callee pointer. *)
Module CallTx.
Record t : Type := mk {
  Input : TxInput.t;
  Address : option Address;
  GasLimit : Z;
  Fee : Z;
  Data : Bytes
}.
Definition setData (d : Bytes) (x : t) : t :=
  mk (Input x) (Address x) (GasLimit x) (Fee x) d.
End CallTx.

(** ** The execution receipt *)

(** A touched-address event: the address and the exception, if any. *)
Record Event : Type := mkEvent {
  EvAddress : Address;
  EvException : option Exception
}.

(** Modelled from the spec: [exec.TxExecution] is declared outside this
    file; the receipt is the spec's ExecutionReceipt, an ordered list of
    touched-address events, the accumulated errors, the return bytes, the
    gas consumed and the textual execution trace.  [PushError] and [Input]
    append, [Return] records the result. *)
Module TxExecution.
Record t : Type := mk {
  Events : list Event;
  Exceptions : list Exception;
  Return : Bytes;
  GasUsed : Z;
  Trace : string
}.
Definition PushError (ex : Exception) (x : t) : t :=
  mk (Events x) (Exceptions x ++ [ex]) (Return x) (GasUsed x) (Trace x).
Definition Input (a : Address) (ex : option Exception) (x : t) : t :=
  mk (Events x ++ [mkEvent a ex]) (Exceptions x) (Return x) (GasUsed x) (Trace x).
Definition Return_ (ret : Bytes) (gasUsed : Z) (x : t) : t :=
  mk (Events x) (Exceptions x) ret gasUsed (Trace x).
End TxExecution.

(** ** Chain tip and virtual-machine parameters *)

(** [bcm.BlockchainInfo], the three accessors [Deliver] reads;
    [LastBlockTime] is already the Unix time. *)
Record BlockchainInfo : Type := mkTip {
  LastBlockHeight : Z;
  LastBlockHash : Bytes;
  LastBlockTime : Z
}.

(** [evm.Params] *)
Record Params : Type := mkParams {
  BlockHeight : Z;
  BlockHash : Bytes;
  BlockTime : Z;
  ParamsGasLimit : Z
}.

(** [const GasLimit = uint64(1000000)] *)
Definition GasLimit : Z := 1000000.

(** What [vmach.Call] leaves behind: the overlay and the receipt it was
    given (both passed by reference in Go), the output, the exception and
    the gas left in [*gas]. *)
Record VMResult (Cache : Type) : Type := mkVMResult {
  vmCache : Cache;
  vmTxe : TxExecution.t;
  vmOutput : Bytes;
  vmException : option Exception;
  vmGas : Z
}.
Arguments mkVMResult {Cache}.
Arguments vmCache {Cache}.
Arguments vmTxe {Cache}.
Arguments vmOutput {Cache}.
Arguments vmException {Cache}.
Arguments vmGas {Cache}.

(** ** The collaborators *)

(** Everything [call_context.go] calls and does not define.

    - [Store] with [GetAccount] and [UpdateAccount] is [state.ReaderWriter].
      [GetAccount] hands out a copy: changing the fetched account changes
      the store only through [UpdateAccount].
    - [Cache] is [evm.State], the overlay opened by [evm.NewState] over the
      store; [Sync] flushes it into the store.
    - [Call] is [evm.NewVM(params, origin, ...).Call(...)].
    - the rest are the permission helpers, [evm.IsRegisteredNativeContract],
      [crypto.NewContractAddress], [binary.LeftPadWord256] and the
      [String]/[Error] methods used in messages. *)
Class Collaborators : Type := {
  Store : Type;
  GetAccount : Store -> Address -> result (option Account.t);
  UpdateAccount : Store -> Account.t -> Store * option error;
  hasCreateContractPermission : Store -> Account.t -> bool;
  hasCallPermission : Store -> Account.t -> bool;
  IsRegisteredNativeContract : Address -> bool;
  NewContractAddress : Address -> Z -> Address;
  LeftPadWord256 : Bytes -> Bytes;
  AddressString : Address -> string;
  ExceptionError : Exception -> string;
  Cache : Type;
  NewState : Store -> Cache;
  IncSequence : Cache -> Address -> Cache;
  GetSequence : Cache -> Address -> Z;
  CreateAccount : Cache -> Address -> Cache;
  GetCode : Cache -> Address -> Bytes;
  InitCode : Cache -> Address -> Bytes -> Cache;
  Sync : Cache -> Store -> Store * option error;
  Call : Params -> Address -> Cache -> TxExecution.t -> Address -> Address ->
         Bytes -> Bytes -> Z -> Z -> VMResult Cache
}.

(** The two constants of lines 205 and 211; both decodings succeed, the
    fall-back values are what Go leaves when the dropped error is not nil. *)
Definition erc20Address : Address :=
  default ZeroAddress (AddressFromHexString "1F1D5E1BE37653A107437A496E62AB6C974606BD").

Definition debugData : Bytes :=
  default [] (DecodeString
    "678135FF0000000000000000000000000000000000000000000000000000000000000001").

Arguments erc20Address : simpl never.
Arguments debugData : simpl never.

(** [Execute] receives a [payload.Payload] and asserts it is a [CallTx]. *)
Inductive Payload : Type :=
| PayloadCallTx (t : CallTx.t)
| PayloadOther (rendering : string).

Section Phases.
Context `{Collaborators}.

(** ** The context *)

(** The calls [call_context.go] makes that reach the store or the virtual
    machine, in the order they are made.  This is a ghost record: it is
    only appended to, and nothing reads it. *)
Inductive Invocation : Type :=
| InvUpdateAccount (acc : Account.t)
| InvCall (caller callee : Address) (code input : Bytes) (value gas : Z)
| InvSync.

(** The Go [CallContext] with what its pointers point to: [StateWriter] is
    the current content of the store, [tx] and [txe] the current content of
    the transaction and of the receipt.  [Logger] and [VMOptions] have no
    part in the state transition and are left out. *)
Record CallContext : Type := mkCtx {
  Tip : BlockchainInfo;
  StateWriter : Store;
  RunCall : bool;
  tx : CallTx.t;
  txe : TxExecution.t;
  calls : list Invocation
}.

Definition setStateWriter (s : Store) (ctx : CallContext) : CallContext :=
  mkCtx (Tip ctx) s (RunCall ctx) (tx ctx) (txe ctx) (calls ctx).
Definition setTx (t : CallTx.t) (ctx : CallContext) : CallContext :=
  mkCtx (Tip ctx) (StateWriter ctx) (RunCall ctx) t (txe ctx) (calls ctx).
Definition setTxe (x : TxExecution.t) (ctx : CallContext) : CallContext :=
  mkCtx (Tip ctx) (StateWriter ctx) (RunCall ctx) (tx ctx) x (calls ctx).
Definition record (i : Invocation) (ctx : CallContext) : CallContext :=
  mkCtx (Tip ctx) (StateWriter ctx) (RunCall ctx) (tx ctx) (txe ctx) (calls ctx ++ [i]).

(** A method of [*CallContext] with results [A, error]: it may change the
    context and either returns or fails. *)
Definition M (A : Type) : Type := CallContext -> CallContext * result A.

Definition ret {A} (a : A) : M A := fun ctx => (ctx, Ok a).
Definition throw {A} (e : error) : M A := fun ctx => (ctx, Err e).
Definition bind {A B} (m : M A) (k : A -> M B) : M B :=
  fun ctx =>
    match m ctx with
    | (ctx', Ok a) => k a ctx'
    | (ctx', Err e) => (ctx', Err e)
    end.
Definition get : M CallContext := fun ctx => (ctx, Ok ctx).
Definition modify (f : CallContext -> CallContext) : M unit :=
  fun ctx => (f ctx, Ok tt).

Notation "x <- c ;; k" := (bind c (fun x => k))
  (at level 100, c at next level, right associativity).
Notation "c ;;; k" := (bind c (fun _ => k))
  (at level 100, right associativity).

(** [ctx.StateWriter.GetAccount(a)] with its [if err != nil] return. *)
Definition getAccount (a : Address) : M (option Account.t) :=
  fun ctx =>
    match GetAccount (StateWriter ctx) a with
    | Ok acc => (ctx, Ok acc)
    | Err e => (ctx, Err e)
    end.

(** [ctx.StateWriter.UpdateAccount(acc)] with its [if err != nil] return. *)
Definition updateAccount (acc : Account.t) : M unit :=
  fun ctx =>
    let '(s, err) := UpdateAccount (StateWriter ctx) acc in
    let ctx' := record (InvUpdateAccount acc) (setStateWriter s ctx) in
    match err with
    | Some e => (ctx', Err e)
    | None => (ctx', Ok tt)
    end.

(** ** Precheck *)

Definition Precheck : M (Account.t * option Account.t) :=
  ctx <- get ;;
  let t := tx ctx in
  (* Validate input *)
  inAcc <- getAccount (TxInput.Address (CallTx.Input t)) ;;
  match inAcc with
  | None => throw (ErrCode ErrorCodeInvalidAddress)
  | Some inAcc =>
      if TxInput.Amount (CallTx.Input t) <? CallTx.Fee t
      then throw (ErrCode ErrorCodeInsufficientFunds)
      else
        let inAcc :=
          Account.setBalance (uint64_sub (Account.Balance inAcc) (CallTx.Fee t)) inAcc in
        outAcc <-
          match CallTx.Address t with
          | None =>
              (* Calling a nil destination is defined as requesting contract creation *)
              if negb (hasCreateContractPermission (StateWriter ctx) inAcc)
              then throw (Errorf ("account " +:+ AddressString (TxInput.Address (CallTx.Input t))
                                  +:+ " does not have CreateContract permission"))
              else ret None
          | Some callee =>
              if negb (hasCallPermission (StateWriter ctx) inAcc)
              then throw (Errorf ("account " +:+ AddressString (TxInput.Address (CallTx.Input t))
                                  +:+ " does not have Call permission"))
              else if IsRegisteredNativeContract callee
              then throw (ErrException (mkException ErrorCodeReservedAddress
                     ("attempt to call a native contract at " +:+ AddressString callee
                      +:+ ", but native contracts cannot be called using CallTx. Use a "
                      +:+ "contract that calls the native contract or the appropriate tx "
                      +:+ "type (eg. PermsTx, NameTx)")))
              else getAccount callee
          end ;;
        updateAccount inAcc ;;;
        ret (inAcc, outAcc)
  end.

(** ** Check *)

Definition Check (inAcc : Account.t) (value : Z) : M unit :=
  ctx <- get ;;
  let createContract := bool_decide (CallTx.Address (tx ctx) = None) in
  (* mempool will skip the actual .Call(), and only deduct from the
     caller's balance *)
  let inAcc := Account.setBalance (uint64_sub (Account.Balance inAcc) value) inAcc in
  let inAcc :=
    if createContract
    then Account.setSequence (uint64_inc (Account.Sequence inAcc)) inAcc
    else inAcc in
  updateAccount inAcc.

(** ** Deliver *)

(** [errors.ErrorCodef(code, format, a...)] *)
Definition ErrorCodef (c : Code) (msg : string) : Exception := mkException c msg.

(** Fire events for sender and receiver. *)
Definition CallEvents (err : option Exception) : M unit :=
  ctx <- get ;;
  modify (fun c =>
    setTxe (TxExecution.Input (TxInput.Address (CallTx.Input (tx ctx))) err (txe c)) c) ;;;
  match CallTx.Address (tx ctx) with
  | Some a => modify (fun c => setTxe (TxExecution.Input a err (txe c)) c)
  | None => ret tt
  end.

(** [vmach.Call(txCache, ctx.txe, caller, callee, code, input, value, &gas)]
    on a fresh machine [evm.NewVM(params, caller, ...)]: the receipt is the
    one of the context, the overlay and the gas are locals of [Deliver]. *)
Definition vmCall (params : Params) (txCache : Cache) (caller callee : Address)
    (code input : Bytes) (value gas : Z) : M (VMResult Cache) :=
  ctx <- get ;;
  let r := Call params caller txCache (txe ctx) caller callee code input value gas in
  modify (fun c => record (InvCall caller callee code input value gas)
                     (setTxe (vmTxe r) c)) ;;;
  ret r.

(** [txCache.Sync()] with its [if err != nil] return. *)
Definition sync (txCache : Cache) : M unit :=
  fun ctx =>
    let '(s, err) := Sync txCache (StateWriter ctx) in
    let ctx' := record InvSync (setStateWriter s ctx) in
    match err with
    | Some e => (ctx', Err e)
    | None => (ctx', Ok tt)
    end.

(** Lines 199 to 244: what [Deliver] does once callee and code are known. *)
Definition DeliverCall (createContract : bool) (params : Params) (txCache : Cache)
    (caller callee : Address) (code : Bytes) (value gas : Z) : M unit :=
  let previousGas := gas in
  ctx <- get ;;
  r <- vmCall params txCache caller callee code (CallTx.Data (tx ctx)) value gas ;;
  let ret_ := vmOutput r in
  let exception := vmException r in
  let txCache := vmCache r in
  let gas := vmGas r in
  let codeERC20 := GetCode txCache erc20Address in
  modify (fun c => setTx (CallTx.setData debugData (tx c)) c) ;;;
  ctx <- get ;;
  r2 <- vmCall params txCache caller callee codeERC20 (CallTx.Data (tx ctx)) value gas ;;
  let txCache := vmCache r2 in
  let gas := vmGas r2 in
  let spentGas := uint64_sub previousGas gas in
  match exception with
  | Some ex =>
      (* Failure. Charge the gas fee. The 'value' was otherwise not transferred. *)
      modify (fun c =>
        setTxe (TxExecution.PushError
                  (ErrorCodef (ExCode ex)
                     ("call error: " +:+ ExceptionError ex +:+
                      String (ascii_of_nat 10) "trace: " +:+ TxExecution.Trace (txe c)))
                  (txe c)) c)
  | None =>
      let txCache := if createContract then InitCode txCache callee ret_ else txCache in
      sync txCache
  end ;;;
  CallEvents exception ;;;
  ctx <- get ;;
  modify (fun c =>
    setTxe (TxExecution.Return_ ret_ (uint64_sub (CallTx.GasLimit (tx ctx)) gas) (txe c)) c).

Definition Deliver (inAcc : Account.t) (outAcc : option Account.t) (value : Z) : M unit :=
  ctx <- get ;;
  let gas := CallTx.GasLimit (tx ctx) in
  let caller := Account.Address inAcc in
  let txCache := NewState (StateWriter ctx) in
  let params :=
    mkParams (LastBlockHeight (Tip ctx)) (LeftPadWord256 (LastBlockHash (Tip ctx)))
             (LastBlockTime (Tip ctx)) GasLimit in
  match CallTx.Address (tx ctx) with
  | None =>
      (* get or create callee; we already checked for permission *)
      let txCache := IncSequence txCache caller in
      let callee := NewContractAddress caller (GetSequence txCache caller) in
      let code := CallTx.Data (tx ctx) in
      let txCache := CreateAccount txCache callee in
      DeliverCall true params txCache caller callee code value gas
  | Some target =>
      match outAcc with
      | None =>
          (* if you call an account that doesn't exist or an account with
             no code then we take fees (sorry pal) *)
          let exception :=
            ErrorCodef ErrorCodeInvalidAddress
              ("CallTx to an address (" +:+ AddressString target +:+ ") that does not exist") in
          modify (fun c => setTxe (TxExecution.PushError exception (txe c)) c) ;;;
          CallEvents (Some exception)
      | Some out =>
          if (length (Account.Code out) =? 0)%nat
          then
            let exception :=
              ErrorCodef ErrorCodeInvalidAddress
                ("CallTx to an address (" +:+ AddressString target +:+ ") that holds no code") in
            modify (fun c => setTxe (TxExecution.PushError exception (txe c)) c) ;;;
            CallEvents (Some exception)
          else
            let callee := Account.Address out in
            let code := GetCode txCache callee in
            DeliverCall false params txCache caller callee code value gas
      end
  end.

(** ** Execute *)

(** [ctx.tx] and [ctx.txe] are set from the arguments, then [Precheck] and
    one of [Deliver] and [Check] run.  For a payload that is not a [CallTx]
    Go leaves [ctx.tx] nil and returns at once; nothing reads the context
    before the next [Execute] sets it again, so the context is returned as
    it was. *)
Definition Execute (x : TxExecution.t) (p : Payload) : M unit :=
  match p with
  | PayloadOther rendering =>
      throw (Errorf ("payload must be CallTx, but is: " +:+ rendering))
  | PayloadCallTx t =>
      modify (fun c => setTxe x (setTx t c)) ;;;
      accs <- Precheck ;;
      let '(inAcc, outAcc) := accs in
      ctx <- get ;;
      (* That the fee less than the input amount is checked by Precheck *)
      let value := uint64_sub (TxInput.Amount (CallTx.Input (tx ctx))) (CallTx.Fee (tx ctx)) in
      if RunCall ctx
      then Deliver inAcc outAcc value
      else Check inAcc value
  end.

(** ** Paths through the phases

    The conditions under which [Precheck] and [Deliver] take each of their
    branches, stated on what the phase is given. *)

(** The input account as [Precheck] holds it after line 73. *)
Definition charged (t : CallTx.t) (inAcc : Account.t) : Account.t :=
  Account.setBalance (uint64_sub (Account.Balance inAcc) (CallTx.Fee t)) inAcc.

Definition inputAddress (ctx : CallContext) : Address :=
  TxInput.Address (CallTx.Input (tx ctx)).

(** The failures of [Precheck] that are decided by the transaction, the
    input account and the permissions, with the error each one returns. *)
Inductive PrecheckFailure (ctx : CallContext) : error -> Prop :=
| MissingInputAccount :
    GetAccount (StateWriter ctx) (inputAddress ctx) = Ok None ->
    PrecheckFailure ctx (ErrCode ErrorCodeInvalidAddress)
| InsufficientFunds inAcc :
    GetAccount (StateWriter ctx) (inputAddress ctx) = Ok (Some inAcc) ->
    TxInput.Amount (CallTx.Input (tx ctx)) < CallTx.Fee (tx ctx) ->
    PrecheckFailure ctx (ErrCode ErrorCodeInsufficientFunds)
| NoCreateContractPermission inAcc :
    GetAccount (StateWriter ctx) (inputAddress ctx) = Ok (Some inAcc) ->
    CallTx.Fee (tx ctx) <= TxInput.Amount (CallTx.Input (tx ctx)) ->
    CallTx.Address (tx ctx) = None ->
    hasCreateContractPermission (StateWriter ctx) (charged (tx ctx) inAcc) = false ->
    PrecheckFailure ctx
      (Errorf ("account " +:+ AddressString (inputAddress ctx)
               +:+ " does not have CreateContract permission"))
| NoCallPermission inAcc callee :
    GetAccount (StateWriter ctx) (inputAddress ctx) = Ok (Some inAcc) ->
    CallTx.Fee (tx ctx) <= TxInput.Amount (CallTx.Input (tx ctx)) ->
    CallTx.Address (tx ctx) = Some callee ->
    hasCallPermission (StateWriter ctx) (charged (tx ctx) inAcc) = false ->
    PrecheckFailure ctx
      (Errorf ("account " +:+ AddressString (inputAddress ctx)
               +:+ " does not have Call permission"))
| NativeContractTarget inAcc callee :
    GetAccount (StateWriter ctx) (inputAddress ctx) = Ok (Some inAcc) ->
    CallTx.Fee (tx ctx) <= TxInput.Amount (CallTx.Input (tx ctx)) ->
    CallTx.Address (tx ctx) = Some callee ->
    hasCallPermission (StateWriter ctx) (charged (tx ctx) inAcc) = true ->
    IsRegisteredNativeContract callee = true ->
    PrecheckFailure ctx
      (ErrException (mkException ErrorCodeReservedAddress
         ("attempt to call a native contract at " +:+ AddressString callee
          +:+ ", but native contracts cannot be called using CallTx. Use a "
          +:+ "contract that calls the native contract or the appropriate tx "
          +:+ "type (eg. PermsTx, NameTx)"))).

(** [Precheck] lets the transaction through: the permission is there, the
    target is not a native contract and the callee, if any, is fetched as
    [outAcc]. *)
Definition PrecheckPasses (ctx : CallContext) (inAcc : Account.t)
    (outAcc : option Account.t) : Prop :=
  match CallTx.Address (tx ctx) with
  | None =>
      hasCreateContractPermission (StateWriter ctx) (charged (tx ctx) inAcc) = true
      /\ outAcc = None
  | Some callee =>
      hasCallPermission (StateWriter ctx) (charged (tx ctx) inAcc) = true
      /\ IsRegisteredNativeContract callee = false
      /\ GetAccount (StateWriter ctx) callee = Ok outAcc
  end.

(** The account [Check] persists. *)
Definition reserved (t : CallTx.t) (inAcc : Account.t) (value : Z) : Account.t :=
  let acc := Account.setBalance (uint64_sub (Account.Balance inAcc) value) inAcc in
  if bool_decide (CallTx.Address t = None)
  then Account.setSequence (uint64_inc (Account.Sequence acc)) acc
  else acc.

(** The parameters [Deliver] builds from the chain tip. *)
Definition tipParams (ctx : CallContext) : Params :=
  mkParams (LastBlockHeight (Tip ctx)) (LeftPadWord256 (LastBlockHash (Tip ctx)))
           (LastBlockTime (Tip ctx)) GasLimit.

(** [Deliver] reaches the virtual machine, either to create a contract or
    to call an account that holds code; the indices are [createContract],
    the overlay, the callee and the code at line 199. *)
Inductive ReachesVM (ctx : CallContext) (inAcc : Account.t) (outAcc : option Account.t)
  : bool -> Cache -> Address -> Bytes -> Prop :=
| ReachesCreate :
    CallTx.Address (tx ctx) = None ->
    let caller := Account.Address inAcc in
    let txCache := IncSequence (NewState (StateWriter ctx)) caller in
    let callee := NewContractAddress caller (GetSequence txCache caller) in
    ReachesVM ctx inAcc outAcc true (CreateAccount txCache callee) callee
      (CallTx.Data (tx ctx))
| ReachesCall target out :
    CallTx.Address (tx ctx) = Some target ->
    outAcc = Some out ->
    Account.Code out <> [] ->
    let txCache := NewState (StateWriter ctx) in
    ReachesVM ctx inAcc outAcc false txCache (Account.Address out)
      (GetCode txCache (Account.Address out)).

(** The results of the two invocations of lines 202 and 214. *)
Definition firstCall (ctx : CallContext) (txCache : Cache) (caller callee : Address)
    (code : Bytes) (value : Z) : VMResult Cache :=
  Call (tipParams ctx) caller txCache (txe ctx) caller callee code
    (CallTx.Data (tx ctx)) value (CallTx.GasLimit (tx ctx)).

Definition secondCall (ctx : CallContext) (caller callee : Address) (value : Z)
    (r : VMResult Cache) : VMResult Cache :=
  Call (tipParams ctx) caller (vmCache r) (vmTxe r) caller callee
    (GetCode (vmCache r) erc20Address) debugData value (vmGas r).

(** The context when the second invocation has returned: the payload
    data is overwritten, the receipt is the one the machine left and both
    invocations are recorded. *)
Definition afterCalls (ctx : CallContext) (txCache : Cache) (caller callee : Address)
    (code : Bytes) (value : Z) : CallContext :=
  let r1 := firstCall ctx txCache caller callee code value in
  let r2 := secondCall ctx caller callee value r1 in
  mkCtx (Tip ctx) (StateWriter ctx) (RunCall ctx)
    (CallTx.setData debugData (tx ctx)) (vmTxe r2)
    (calls ctx ++
       [InvCall caller callee code (CallTx.Data (tx ctx)) value (CallTx.GasLimit (tx ctx));
        InvCall caller callee (GetCode (vmCache r1) erc20Address) debugData value (vmGas r1)]).

(** The exception [Deliver] pushes for the exception [ex] of the machine. *)
Definition callError (ex : Exception) (x : TxExecution.t) : Exception :=
  ErrorCodef (ExCode ex)
    ("call error: " +:+ ExceptionError ex +:+
     String (ascii_of_nat 10) "trace: " +:+ TxExecution.Trace x).

(** The receipt after [CallEvents(err)]. *)
Definition withCallEvents (ctx : CallContext) (err : option Exception)
    (x : TxExecution.t) : TxExecution.t :=
  let x := TxExecution.Input (inputAddress ctx) err x in
  match CallTx.Address (tx ctx) with
  | Some a => TxExecution.Input a err x
  | None => x
  end.

(** An invocation of the virtual machine, among the recorded calls. *)
Definition isCall (i : Invocation) : bool :=
  match i with
  | InvCall _ _ _ _ _ _ => true
  | _ => false
  end.

(** The other two kinds of recorded call. *)
Definition isUpdateAccount (i : Invocation) : bool :=
  match i with
  | InvUpdateAccount _ => true
  | _ => false
  end.

Definition isSync (i : Invocation) : bool :=
  match i with
  | InvSync => true
  | _ => false
  end.

(** The exception of lines 172 to 185, when the target of a call is
    missing or holds no code. *)
Definition noCodeTarget (target : Address) (outAcc : option Account.t) : option Exception :=
  match outAcc with
  | None =>
      Some (ErrorCodef ErrorCodeInvalidAddress
              ("CallTx to an address (" +:+ AddressString target +:+ ") that does not exist"))
  | Some out =>
      if (length (Account.Code out) =? 0)%nat
      then Some (ErrorCodef ErrorCodeInvalidAddress
                   ("CallTx to an address (" +:+ AddressString target
                    +:+ ") that holds no code"))
      else None
  end.

(** A machine that only appends to the receipt it is given. *)
Definition AppendOnly : Prop :=
  forall params origin txCache x caller callee code input value gas,
    let x' := vmTxe (Call params origin txCache x caller callee code input value gas) in
    (exists evs, TxExecution.Events x' = TxExecution.Events x ++ evs)
    /\ (exists exs, TxExecution.Exceptions x' = TxExecution.Exceptions x ++ exs).

End Phases.

(** ** An in-memory instance

    Concrete collaborators to run the phases on concrete transactions.
    The general theorems below do not depend on them. *)
Module Mem.

(** Modelled from the spec: the AccountStore is a keyed read/update of
    account records; here a finite map from address to account whose
    reads and writes never fail. *)
Definition GetAccount (s : gmap Z Account.t) (a : Address) : result (option Account.t) :=
  Ok (s !! a).

Definition UpdateAccount (s : gmap Z Account.t) (acc : Account.t)
  : gmap Z Account.t * option error :=
  (<[Account.Address acc := acc]> s, None).

(** Modelled from the spec: the PermissionChecker returns a boolean
    capability; here the [Call] and [CreateContract] bits of the
    account's own permission flags. *)
Definition CallFlag : Z := 2.
Definition CreateContractFlag : Z := 3.

Definition hasCallPermission (_ : gmap Z Account.t) (acc : Account.t) : bool :=
  Z.testbit (Account.Permissions acc) CallFlag.
Definition hasCreateContractPermission (_ : gmap Z Account.t) (acc : Account.t) : bool :=
  Z.testbit (Account.Permissions acc) CreateContractFlag.

(** One reserved address stands for the registered native contracts. *)
Definition nativeAddress : Address := 255.
Definition IsRegisteredNativeContract (a : Address) : bool := a =? nativeAddress.

(** A stand-in for the hash of [crypto.NewContractAddress]. *)
Definition NewContractAddress (caller : Address) (sequence : Z) : Address :=
  (caller * 2 ^ 64 + sequence) mod 2 ^ 160.

Definition LeftPadWord256 (bz : Bytes) : Bytes :=
  repeat x00 (32 - length bz) ++ bz.

Definition AddressString (a : Address) : string := "<address>".
Definition ExceptionError (ex : Exception) : string := ExMessage ex.

(** Modelled from the spec: the StateOverlay holds pending account
    mutations keyed by address over a base snapshot of the AccountStore,
    and is flushed into the store by a commit. *)
Record Cache : Type := mkCache {
  base : gmap Z Account.t;
  pending : gmap Z Account.t
}.

Definition NewState (s : gmap Z Account.t) : Cache := mkCache s ∅.

Definition account (c : Cache) (a : Address) : option Account.t :=
  match pending c !! a with
  | Some acc => Some acc
  | None => base c !! a
  end.

Definition put (c : Cache) (acc : Account.t) : Cache :=
  mkCache (base c) (<[Account.Address acc := acc]> (pending c)).

Definition IncSequence (c : Cache) (a : Address) : Cache :=
  match account c a with
  | Some acc => put c (Account.setSequence (uint64_inc (Account.Sequence acc)) acc)
  | None => c
  end.

Definition GetSequence (c : Cache) (a : Address) : Z :=
  from_option Account.Sequence 0 (account c a).

Definition CreateAccount (c : Cache) (a : Address) : Cache :=
  match account c a with
  | Some _ => c
  | None => put c (Account.mk a 0 0 [] 0)
  end.

Definition GetCode (c : Cache) (a : Address) : Bytes :=
  from_option Account.Code [] (account c a).

Definition InitCode (c : Cache) (a : Address) (code : Bytes) : Cache :=
  match account c a with
  | Some acc =>
      put c (Account.mk (Account.Address acc) (Account.Balance acc)
               (Account.Sequence acc) code (Account.Permissions acc))
  | None => c
  end.

Definition Sync (c : Cache) (s : gmap Z Account.t) : gmap Z Account.t * option error :=
  (pending c ∪ s, None).

(** A toy virtual machine.  It moves [value] from caller to callee in the
    overlay, then charges one unit of gas per byte of code; it raises an
    exception when the gas does not suffice or when the code starts with
    the invalid opcode [0xfe], and leaves the transfer in the overlay
    when it does.  The output is the input. *)
Definition transfer (c : Cache) (from to : Address) (value : Z) : Cache :=
  match account c from with
  | Some f =>
      let c := put c (Account.setBalance (uint64_sub (Account.Balance f) value) f) in
      match account c to with
      | Some t => put c (Account.setBalance (wrap64 (Account.Balance t + value)) t)
      | None => c
      end
  | None => c
  end.

Definition traced (x : TxExecution.t) : TxExecution.t :=
  TxExecution.mk (TxExecution.Events x) (TxExecution.Exceptions x)
    (TxExecution.Return x) (TxExecution.GasUsed x) (TxExecution.Trace x +:+ "CALL;").

Definition Call (_ : Params) (_ : Address) (c : Cache) (x : TxExecution.t)
    (caller callee : Address) (code input : Bytes) (value gas : Z) : VMResult Cache :=
  let c := transfer c caller callee value in
  let cost := Z.of_nat (length code) in
  if gas <? cost
  then mkVMResult c (traced x) [] (Some (mkException (ErrorCodeOther 0) "out of gas")) 0
  else
    match code with
    | xfe :: _ =>
        mkVMResult c (traced x) [] (Some (mkException (ErrorCodeOther 1) "invalid opcode"))
          (gas - cost)
    | _ => mkVMResult c (traced x) input None (gas - cost)
    end.

#[export] Instance collaborators : Collaborators :=
  Build_Collaborators (gmap Z Account.t) GetAccount UpdateAccount
    hasCreateContractPermission hasCallPermission IsRegisteredNativeContract
    NewContractAddress LeftPadWord256 AddressString ExceptionError
    Cache NewState IncSequence GetSequence CreateAccount GetCode InitCode Sync Call.

(** The same collaborators with a store that refuses every [Sync]. *)
Definition SyncFails (c : Cache) (s : gmap Z Account.t) : gmap Z Account.t * option error :=
  (s, Some (ErrBackend "sync refused")).

Definition unsynced : Collaborators :=
  Build_Collaborators (gmap Z Account.t) GetAccount UpdateAccount
    hasCreateContractPermission hasCallPermission IsRegisteredNativeContract
    NewContractAddress LeftPadWord256 AddressString ExceptionError
    Cache NewState IncSequence GetSequence CreateAccount GetCode InitCode SyncFails Call.

(** *** Sample data *)

Definition alice : Address := 1.
Definition bob : Address := 2.

Definition tip : BlockchainInfo := mkTip 7 [] 1500000000.
Definition emptyTxe : TxExecution.t := TxExecution.mk [] [] [] 0 "".

(** alice may call and create; bob holds the code [bobCode]. *)
Definition aliceAcc (balance : Z) : Account.t := Account.mk alice balance 0 [] 12.
Definition bobAcc (bobCode : Bytes) : Account.t := Account.mk bob 0 0 bobCode 0.

Definition store (aliceBalance : Z) (bobCode : Bytes) : gmap Z Account.t :=
  <[alice := aliceAcc aliceBalance]> (<[bob := bobAcc bobCode]> ∅).

(** The same with a one-byte contract at the address of line 205. *)
Definition tokenStore (aliceBalance : Z) (bobCode : Bytes) : gmap Z Account.t :=
  <[erc20Address := Account.mk erc20Address 0 0 [x00] 0]> (store aliceBalance bobCode).

Definition callTx (from : Address) (to : option Address) (amount fee gas : Z)
    (data : Bytes) : CallTx.t :=
  CallTx.mk (TxInput.mk from amount) to gas fee data.

(** alice sends 20 with a fee of 5 and 5000 gas: to bob, to nobody (a
    creation), to the native contract, to an account that is not there. *)
Definition toBob : CallTx.t := callTx alice (Some bob) 20 5 5000 [x01].
Definition create : CallTx.t := callTx alice None 20 5 5000 [x00].
Definition toNative : CallTx.t := callTx alice (Some nativeAddress) 20 5 5000 [].
Definition toNobody : CallTx.t := callTx alice (Some 77) 20 5 5000 [].
(** A fee above the amount. *)
Definition underpaid : CallTx.t := callTx alice (Some bob) 5 20 5000 [].

Definition context (s : gmap Z Account.t) (run : bool) (t : CallTx.t) : CallContext :=
  mkCtx tip s run t emptyTxe [].

(** The context [Precheck] leaves when alice, with [balance], passes it. *)
Definition prechecked (balance : Z) (bobCode : Bytes) (run : bool) (t : CallTx.t)
  : CallContext :=
  let s : gmap Z Account.t := <[alice := charged t (aliceAcc balance)]> (store balance bobCode) in
  record (InvUpdateAccount (charged t (aliceAcc balance)))
    (setStateWriter s (context (store balance bobCode) run t)).

(** alice, already charged, calls bob who holds one byte of code, over
    the store that refuses to sync. *)
Definition unsyncedContext : @CallContext unsynced :=
  @mkCtx unsynced tip (store 95 [x00]) true toBob emptyTxe [].

End Mem.

(** * Properties *)

Section Properties.
Context `{Collaborators}.

Ltac run :=
  unfold bind, get, modify, ret, throw, getAccount, updateAccount; cbn.

(** ** Precheck *)

(** On the branch taken with a known input account and a fee the amount
    covers, [Precheck] is the permission check followed by the persist. *)
Lemma Precheck_passes ctx inAcc outAcc :
  GetAccount (StateWriter ctx) (inputAddress ctx) = Ok (Some inAcc) ->
  CallTx.Fee (tx ctx) <= TxInput.Amount (CallTx.Input (tx ctx)) ->
  PrecheckPasses ctx inAcc outAcc ->
  Precheck ctx =
    (let '(s, err) := UpdateAccount (StateWriter ctx) (charged (tx ctx) inAcc) in
     (record (InvUpdateAccount (charged (tx ctx) inAcc)) (setStateWriter s ctx),
      match err with
      | Some e => Err e
      | None => Ok (charged (tx ctx) inAcc, outAcc)
      end)).
Proof.
  intros Hin Hfee Hpass.
  unfold Precheck, PrecheckPasses, inputAddress in *. run. rewrite Hin.
  destruct (Z.ltb_spec (TxInput.Amount (CallTx.Input (tx ctx))) (CallTx.Fee (tx ctx)));
    [lia|].
  fold (charged (tx ctx) inAcc).
  destruct (CallTx.Address (tx ctx)) as [callee|].
  - destruct Hpass as (Hperm & Hnative & Hout).
    rewrite Hperm, Hnative. cbn. rewrite Hout.
    destruct (UpdateAccount _ _) as [s [e|]]; reflexivity.
  - destruct Hpass as (Hperm & ->). rewrite Hperm. cbn.
    destruct (UpdateAccount _ _) as [s [e|]]; reflexivity.
Qed.

(** What a successful [Precheck] tells: the input account exists, the
    amount covers the fee, the account returned is the fetched one with
    the fee taken off, and persisting it was the only call made. *)
Lemma Precheck_Ok_inv ctx ctx' inAcc outAcc :
  Precheck ctx = (ctx', Ok (inAcc, outAcc)) ->
  exists orig,
    GetAccount (StateWriter ctx) (inputAddress ctx) = Ok (Some orig)
    /\ CallTx.Fee (tx ctx) <= TxInput.Amount (CallTx.Input (tx ctx))
    /\ PrecheckPasses ctx orig outAcc
    /\ inAcc = charged (tx ctx) orig
    /\ UpdateAccount (StateWriter ctx) inAcc = (StateWriter ctx', None)
    /\ ctx' = record (InvUpdateAccount inAcc) (setStateWriter (StateWriter ctx') ctx).
Proof.
  unfold Precheck, PrecheckPasses, inputAddress. run.
  destruct (GetAccount _ _) as [[orig|]|e] eqn:Hin; try discriminate.
  destruct (Z.ltb_spec (TxInput.Amount (CallTx.Input (tx ctx))) (CallTx.Fee (tx ctx)));
    try discriminate.
  fold (charged (tx ctx) orig).
  destruct (CallTx.Address (tx ctx)) as [callee|].
  - destruct (hasCallPermission _ _) eqn:Hperm; cbn; try discriminate.
    destruct (IsRegisteredNativeContract callee) eqn:Hnative; cbn; try discriminate.
    destruct (GetAccount (StateWriter ctx) callee) as [out|e] eqn:Hout; try discriminate.
    destruct (UpdateAccount _ _) as [s [e|]] eqn:Hupd; try discriminate.
    intros [= <- <- <-]. exists orig. cbn. rewrite Hupd. auto 10.
  - destruct (hasCreateContractPermission _ _) eqn:Hperm; cbn; try discriminate.
    destruct (UpdateAccount _ _) as [s [e|]] eqn:Hupd; try discriminate.
    intros [= <- <- <-]. exists orig. cbn. rewrite Hupd. auto 10.
Qed.

(** An error of [Precheck] leaves the context as it was, unless it is the
    error of the persist itself. *)
Lemma Precheck_Err_inv ctx ctx' e :
  Precheck ctx = (ctx', Err e) ->
  ctx' = ctx
  \/ exists inAcc s,
       UpdateAccount (StateWriter ctx) inAcc = (s, Some e)
       /\ ctx' = record (InvUpdateAccount inAcc) (setStateWriter s ctx).
Proof.
  unfold Precheck. run.
  destruct (GetAccount _ _) as [[orig|]|e0]; try (intros [= <- <-]; auto; fail).
  destruct (_ <? _); try (intros [= <- <-]; auto; fail).
  destruct (CallTx.Address (tx ctx)) as [callee|].
  - destruct (hasCallPermission _ _); cbn; try (intros [= <- <-]; auto; fail).
    destruct (IsRegisteredNativeContract callee); cbn; try (intros [= <- <-]; auto; fail).
    destruct (GetAccount (StateWriter ctx) callee) as [out|e1];
      try (intros [= <- <-]; auto; fail).
    destruct (UpdateAccount _ _) as [s [e1|]] eqn:Hupd; try discriminate.
    intros [= <- <-]. right. eauto.
  - destruct (hasCreateContractPermission _ _); cbn; try (intros [= <- <-]; auto; fail).
    destruct (UpdateAccount _ _) as [s [e1|]] eqn:Hupd; try discriminate.
    intros [= <- <-]. right. eauto.
Qed.

(** No phase before [Deliver] writes the transaction. *)
Lemma Precheck_tx ctx : tx (fst (Precheck ctx)) = tx ctx.
Proof.
  destruct (Precheck ctx) as [ctx' [[inAcc outAcc]|e]] eqn:HP; cbn.
  - apply Precheck_Ok_inv in HP as (orig & _ & _ & _ & _ & _ & ->). reflexivity.
  - apply Precheck_Err_inv in HP as [->|(inAcc & s & _ & ->)]; reflexivity.
Qed.

Lemma Check_tx inAcc value ctx : tx (fst (Check inAcc value ctx)) = tx ctx.
Proof.
  unfold Check. run.
  destruct (UpdateAccount _ _) as [s [e|]]; reflexivity.
Qed.

(** C9. When the store has no account at the input address, [Precheck]
    fails with [InvalidAddress] and hands the context back as it was: the
    store is the same and no call to [UpdateAccount] was recorded. *)
Theorem Precheck_unknown_input ctx :
  GetAccount (StateWriter ctx) (inputAddress ctx) = Ok None ->
  Precheck ctx = (ctx, Err (ErrCode ErrorCodeInvalidAddress)).
Proof.
  intros Hin. unfold Precheck, inputAddress in *. run. now rewrite Hin.
Qed.

(** C8, amended. When the input account exists and the declared fee
    exceeds the declared amount, [Precheck] fails with [InsufficientFunds]
    and hands the context back as it was: nothing is persisted. *)
Theorem Precheck_fee_exceeds_amount ctx inAcc :
  GetAccount (StateWriter ctx) (inputAddress ctx) = Ok (Some inAcc) ->
  CallTx.Fee (tx ctx) > TxInput.Amount (CallTx.Input (tx ctx)) ->
  Precheck ctx = (ctx, Err (ErrCode ErrorCodeInsufficientFunds)).
Proof.
  intros Hin Hfee. unfold Precheck, inputAddress in *. run. rewrite Hin.
  destruct (Z.ltb_spec (TxInput.Amount (CallTx.Input (tx ctx))) (CallTx.Fee (tx ctx)));
    [reflexivity | lia].
Qed.

(** C10. On each failure path of [Precheck] that the transaction, the
    input account and the permissions decide (input account missing, fee
    above the amount, CreateContract or Call permission missing, native
    contract as target), the error is returned with the context as it
    was: the store is untouched and no call to [UpdateAccount] is
    recorded, although the fetched account had its fee taken off in
    memory on the last three. *)
Theorem Precheck_failure_leaves_store ctx e :
  PrecheckFailure ctx e ->
  Precheck ctx = (ctx, Err e).
Proof.
  intros Hfail.
  destruct Hfail as [Hin | inAcc Hin Hfee | inAcc Hin Hfee Hto Hperm
                     | inAcc callee Hin Hfee Hto Hperm
                     | inAcc callee Hin Hfee Hto Hperm Hnative];
    unfold Precheck, inputAddress, charged in *; run;
    rewrite Hin; try reflexivity;
    destruct (Z.ltb_spec (TxInput.Amount (CallTx.Input (tx ctx))) (CallTx.Fee (tx ctx)));
    try reflexivity; try lia;
    rewrite Hto, Hperm; cbn; try rewrite Hnative; reflexivity.
Qed.

(** ** Check *)

Lemma Check_run inAcc value ctx :
  Check inAcc value ctx =
    (let '(s, err) := UpdateAccount (StateWriter ctx) (reserved (tx ctx) inAcc value) in
     (record (InvUpdateAccount (reserved (tx ctx) inAcc value)) (setStateWriter s ctx),
      match err with
      | Some e => Err e
      | None => Ok tt
      end)).
Proof.
  unfold Check, reserved. run.
  destruct (UpdateAccount _ _) as [s [e|]]; reflexivity.
Qed.

Lemma reserved_Balance t inAcc value :
  Account.Balance (reserved t inAcc value) = (Account.Balance inAcc - value) mod 2 ^ 64.
Proof. unfold reserved. now case_bool_decide. Qed.

Lemma reserved_Sequence t inAcc value :
  Account.Sequence (reserved t inAcc value) =
    match CallTx.Address t with
    | None => (Account.Sequence inAcc + 1) mod 2 ^ 64
    | Some _ => Account.Sequence inAcc
    end.
Proof.
  unfold reserved. case_bool_decide as Hto.
  - now rewrite Hto.
  - now destruct (CallTx.Address t).
Qed.

(** C5. Neither [Precheck] nor [Check] looks at the balance.  Whenever the
    input account exists, the amount covers the fee and the permission
    check passes, [Precheck] succeeds and persists the account with balance
    [(balance - fee) mod 2^64], whatever the balance; [Check] persists
    [(balance - value) mod 2^64] in the same way. *)
Theorem Precheck_Check_unchecked_subtraction ctx inAcc outAcc s :
  GetAccount (StateWriter ctx) (inputAddress ctx) = Ok (Some inAcc) ->
  CallTx.Fee (tx ctx) <= TxInput.Amount (CallTx.Input (tx ctx)) ->
  PrecheckPasses ctx inAcc outAcc ->
  UpdateAccount (StateWriter ctx) (charged (tx ctx) inAcc) = (s, None) ->
  Precheck ctx =
    (record (InvUpdateAccount (charged (tx ctx) inAcc)) (setStateWriter s ctx),
     Ok (charged (tx ctx) inAcc, outAcc))
  /\ Account.Balance (charged (tx ctx) inAcc) =
       (Account.Balance inAcc - CallTx.Fee (tx ctx)) mod 2 ^ 64
  /\ forall acc value ctx2, exists acc',
       calls (fst (Check acc value ctx2)) = calls ctx2 ++ [InvUpdateAccount acc']
       /\ Account.Balance acc' = (Account.Balance acc - value) mod 2 ^ 64.
Proof.
  intros Hin Hfee Hpass Hupd. split; [|split].
  - rewrite (Precheck_passes ctx inAcc outAcc Hin Hfee Hpass), Hupd. reflexivity.
  - reflexivity.
  - intros acc value ctx2. exists (reserved (tx ctx2) acc value).
    rewrite Check_run, reserved_Balance.
    destruct (UpdateAccount (StateWriter ctx2) _) as [s' [e|]]; cbn; split; reflexivity.
Qed.

(** C7. In mempool mode ([RunCall] false), once [Precheck] has passed,
    [Execute] makes exactly one further call, the [UpdateAccount] of
    [Check]: the virtual machine is not invoked, the receipt is the one
    handed in, and the account persisted is the fee-deducted account of
    [Precheck] with [amount - fee] taken off its balance and its sequence
    number incremented exactly when the callee is absent; its address, code
    and permissions are those of the account of [Precheck]. *)
Theorem Execute_mempool ctx x t ctx1 inAcc outAcc :
  RunCall ctx = false ->
  Precheck (setTxe x (setTx t ctx)) = (ctx1, Ok (inAcc, outAcc)) ->
  exists acc final r,
    Execute x (PayloadCallTx t) ctx = (final, r)
    /\ calls final = calls ctx ++ [InvUpdateAccount inAcc; InvUpdateAccount acc]
    /\ filter isCall (calls final) = filter isCall (calls ctx)
    /\ txe final = x
    /\ tx final = t
    /\ StateWriter final = fst (UpdateAccount (StateWriter ctx1) acc)
    /\ r = match snd (UpdateAccount (StateWriter ctx1) acc) with
           | Some e => Err e
           | None => Ok tt
           end
    /\ Account.Address acc = Account.Address inAcc
    /\ Account.Balance acc =
         (Account.Balance inAcc
          - (TxInput.Amount (CallTx.Input t) - CallTx.Fee t) mod 2 ^ 64) mod 2 ^ 64
    /\ Account.Sequence acc =
         match CallTx.Address t with
         | None => (Account.Sequence inAcc + 1) mod 2 ^ 64
         | Some _ => Account.Sequence inAcc
         end
    /\ Account.Code acc = Account.Code inAcc
    /\ Account.Permissions acc = Account.Permissions inAcc.
Proof.
  intros Hrun HP.
  pose proof (Precheck_Ok_inv _ _ _ _ HP) as (orig & _ & _ & _ & _ & _ & Hctx1).
  set (value := uint64_sub (TxInput.Amount (CallTx.Input t)) (CallTx.Fee t)).
  exists (reserved t inAcc value).
  assert (Htx : tx ctx1 = t) by (rewrite Hctx1; reflexivity).
  assert (Hrun1 : RunCall ctx1 = false) by (rewrite Hctx1; exact Hrun).
  assert (HE : Execute x (PayloadCallTx t) ctx = Check inAcc value ctx1).
  { unfold Execute, bind, modify, get. cbv beta iota. rewrite HP. cbv beta iota.
    rewrite Hrun1, Htx. reflexivity. }
  rewrite HE, Check_run, Htx.
  destruct (UpdateAccount (StateWriter ctx1) (reserved t inAcc value)) as [s err].
  eexists _, _. split; [reflexivity|].
  cbn. rewrite reserved_Balance, reserved_Sequence.
  assert (Hcalls : calls ctx1 = calls ctx ++ [InvUpdateAccount inAcc])
    by (rewrite Hctx1; reflexivity).
  assert (Htxe : txe ctx1 = x) by (rewrite Hctx1; reflexivity).
  rewrite Hcalls, Htxe, <- app_assoc. cbn.
  repeat split; try reflexivity.
  - rewrite filter_app. cbn. apply app_nil_r.
  - exact Htx.
  - unfold reserved. now case_bool_decide.
  - unfold reserved. now case_bool_decide.
  - unfold reserved. now case_bool_decide.
Qed.

(** ** Deliver *)

(** C3. A call (callee present) whose target account is missing or holds
    no code: [Deliver] returns nil, the store and the recorded calls are
    as before (no transfer, no invocation), and the receipt gains one
    [InvalidAddress] exception and the touched-address events of sender
    and receiver carrying it. *)
Theorem Deliver_no_code_target ctx inAcc outAcc value target :
  CallTx.Address (tx ctx) = Some target ->
  (outAcc = None \/ exists out, outAcc = Some out /\ Account.Code out = []) ->
  exists ex,
    ExCode ex = ErrorCodeInvalidAddress
    /\ Deliver inAcc outAcc value ctx =
         (setTxe (TxExecution.Input target (Some ex)
                    (TxExecution.Input (inputAddress ctx) (Some ex)
                       (TxExecution.PushError ex (txe ctx)))) ctx,
          Ok tt).
Proof.
  intros Hto Hout. unfold Deliver, CallEvents, inputAddress. run. rewrite Hto.
  destruct Hout as [-> | (out & -> & Hcode)].
  - eexists. split; [|cbn; rewrite Hto; reflexivity]. reflexivity.
  - rewrite Hcode. cbn.
    eexists. split; [|rewrite Hto; reflexivity]. reflexivity.
Qed.

(** [Deliver] on the two paths that reach the virtual machine. *)
Lemma Deliver_reaches ctx inAcc outAcc value create txCache callee code :
  ReachesVM ctx inAcc outAcc create txCache callee code ->
  Deliver inAcc outAcc value ctx =
    DeliverCall create (tipParams ctx) txCache (Account.Address inAcc) callee code
      value (CallTx.GasLimit (tx ctx)) ctx.
Proof.
  intros [Hto | target out Hto -> Hcode]; unfold Deliver; run; rewrite Hto.
  - reflexivity.
  - destruct (Account.Code out); [congruence | reflexivity].
Qed.

(** Lines 199 to 244 in one equation. *)
Lemma DeliverCall_run create txCache caller callee code value ctx :
  let r1 := firstCall ctx txCache caller callee code value in
  let r2 := secondCall ctx caller callee value r1 in
  let ctx2 := afterCalls ctx txCache caller callee code value in
  let gasUsed := uint64_sub (CallTx.GasLimit (tx ctx)) (vmGas r2) in
  DeliverCall create (tipParams ctx) txCache caller callee code value
      (CallTx.GasLimit (tx ctx)) ctx =
    match vmException r1 with
    | Some ex =>
        (setTxe (TxExecution.Return_ (vmOutput r1) gasUsed
                   (withCallEvents ctx (Some ex)
                      (TxExecution.PushError (callError ex (vmTxe r2)) (vmTxe r2))))
           ctx2,
         Ok tt)
    | None =>
        let '(s, err) :=
          Sync (if create then InitCode (vmCache r2) callee (vmOutput r1) else vmCache r2)
               (StateWriter ctx) in
        match err with
        | Some e => (record InvSync (setStateWriter s ctx2), Err e)
        | None =>
            (setTxe (TxExecution.Return_ (vmOutput r1) gasUsed
                       (withCallEvents ctx None (vmTxe r2)))
               (record InvSync (setStateWriter s ctx2)),
             Ok tt)
        end
    end.
Proof.
  unfold DeliverCall, vmCall, CallEvents, sync, afterCalls, firstCall, secondCall,
    withCallEvents, callError, inputAddress, tipParams.
  run. unfold record, setTxe, setTx, setStateWriter. cbn.
  destruct (vmException _) as [ex|]; cbn.
  - destruct (CallTx.Address (tx ctx)); cbn; rewrite <- ?List.app_assoc; reflexivity.
  - destruct (Sync _ _) as [s [e|]]; cbn; rewrite <- ?List.app_assoc; cbn; [reflexivity|].
    destruct (CallTx.Address (tx ctx)); cbn; rewrite <- ?List.app_assoc; reflexivity.
Qed.

(** C2. When the invocation of line 202 returns an exception, [Deliver]
    returns nil; the store is the one it started with and the only calls
    made are the two invocations of the machine, so the overlay is never
    synced; the receipt gains the exception's code with the message
    extended by the execution trace. *)
Theorem Deliver_vm_exception ctx inAcc outAcc value create txCache callee code ex :
  ReachesVM ctx inAcc outAcc create txCache callee code ->
  vmException (firstCall ctx txCache (Account.Address inAcc) callee code value) = Some ex ->
  let r2 := secondCall ctx (Account.Address inAcc) callee value
              (firstCall ctx txCache (Account.Address inAcc) callee code value) in
  exists final,
    Deliver inAcc outAcc value ctx = (final, Ok tt)
    /\ StateWriter final = StateWriter ctx
    /\ (exists i1 i2,
          calls final = calls ctx ++ [i1; i2] /\ isCall i1 = true /\ isCall i2 = true)
    /\ TxExecution.Exceptions (txe final) =
         TxExecution.Exceptions (vmTxe r2) ++ [callError ex (vmTxe r2)]
    /\ ExCode (callError ex (vmTxe r2)) = ExCode ex.
Proof.
  intros Hreach Hex r2.
  rewrite (Deliver_reaches _ _ _ value _ _ _ _ Hreach), DeliverCall_run.
  cbv zeta. rewrite Hex. eexists. split; [reflexivity|].
  split; [reflexivity|]. split.
  - cbn. eauto.
  - split; [|reflexivity]. unfold withCallEvents.
    destruct (CallTx.Address (tx ctx)); reflexivity.
Qed.

(** X9. What [Deliver] records when it returns nil after the machine ran: the
    gas used is counted to the end of the second invocation, and both
    invocations are handed the same [value]. *)
Lemma Deliver_receipt ctx inAcc outAcc value create txCache callee code final :
  ReachesVM ctx inAcc outAcc create txCache callee code ->
  Deliver inAcc outAcc value ctx = (final, Ok tt) ->
  let r1 := firstCall ctx txCache (Account.Address inAcc) callee code value in
  let r2 := secondCall ctx (Account.Address inAcc) callee value r1 in
  TxExecution.GasUsed (txe final) = (CallTx.GasLimit (tx ctx) - vmGas r2) mod 2 ^ 64
  /\ TxExecution.Return (txe final) = vmOutput r1
  /\ exists rest,
       calls final =
         calls ctx ++
         InvCall (Account.Address inAcc) callee code (CallTx.Data (tx ctx)) value
           (CallTx.GasLimit (tx ctx))
         :: InvCall (Account.Address inAcc) callee (GetCode (vmCache r1) erc20Address)
              debugData value (vmGas r1)
         :: rest.
Proof.
  intros Hreach. rewrite (Deliver_reaches _ _ _ value _ _ _ _ Hreach), DeliverCall_run.
  cbv zeta. destruct (vmException _) as [ex|].
  - intros [= <-]. cbn. repeat split. now exists [].
  - destruct (Sync _ _) as [s [e|]]; [discriminate|].
    intros [= <-]. cbn. repeat split. exists [InvSync].
    now rewrite <- List.app_assoc.
Qed.

(** Whenever the machine is reached, the payload data of the transaction
    is replaced by the constant of line 211. *)
Lemma Deliver_overwrites_Data ctx inAcc outAcc value create txCache callee code :
  ReachesVM ctx inAcc outAcc create txCache callee code ->
  CallTx.Data (tx (fst (Deliver inAcc outAcc value ctx))) = debugData.
Proof.
  intros Hreach. rewrite (Deliver_reaches _ _ _ value _ _ _ _ Hreach), DeliverCall_run.
  cbv zeta. destruct (vmException _) as [ex|]; [reflexivity|].
  destruct (Sync _ _) as [s [e|]]; reflexivity.
Qed.

(** In block mode [Execute] hands [Deliver] the accounts of [Precheck] and
    the value [amount - fee], which does not wrap for 64-bit operands. *)
Lemma Execute_deliver ctx x t ctx1 inAcc outAcc :
  RunCall ctx = true ->
  Precheck (setTxe x (setTx t ctx)) = (ctx1, Ok (inAcc, outAcc)) ->
  Execute x (PayloadCallTx t) ctx =
    Deliver inAcc outAcc (uint64_sub (TxInput.Amount (CallTx.Input t)) (CallTx.Fee t)) ctx1
  /\ (0 <= CallTx.Fee t -> TxInput.Amount (CallTx.Input t) < 2 ^ 64 ->
      uint64_sub (TxInput.Amount (CallTx.Input t)) (CallTx.Fee t) =
        TxInput.Amount (CallTx.Input t) - CallTx.Fee t).
Proof.
  intros Hrun HP.
  pose proof (Precheck_Ok_inv _ _ _ _ HP) as (orig & _ & Hfee & _ & _ & _ & Hctx1).
  assert (Htx : tx ctx1 = t) by (rewrite Hctx1; reflexivity).
  assert (Hrun1 : RunCall ctx1 = true) by (rewrite Hctx1; exact Hrun).
  split.
  - unfold Execute, bind, modify, get. cbv beta iota. rewrite HP. cbv beta iota.
    rewrite Hrun1, Htx. reflexivity.
  - cbn in Hfee. intros Hlo Hhi. unfold uint64_sub, wrap64.
    apply Z.mod_small. lia.
Qed.

(** ** Further properties of [Precheck] *)

(** X1. A successful [Precheck], read backwards: the input account was in the
    store, the amount covers the fee, the permission check passed, and the
    account returned is the stored one with only its balance changed, to
    [(balance - fee) mod 2^64]; it was persisted by the one call made, and
    the transaction and the receipt are as before. *)
Theorem Precheck_success_inversion ctx ctx' inAcc outAcc :
  Precheck ctx = (ctx', Ok (inAcc, outAcc)) ->
  exists orig,
    GetAccount (StateWriter ctx) (inputAddress ctx) = Ok (Some orig)
    /\ CallTx.Fee (tx ctx) <= TxInput.Amount (CallTx.Input (tx ctx))
    /\ PrecheckPasses ctx orig outAcc
    /\ Account.Balance inAcc = (Account.Balance orig - CallTx.Fee (tx ctx)) mod 2 ^ 64
    /\ Account.Address inAcc = Account.Address orig
    /\ Account.Sequence inAcc = Account.Sequence orig
    /\ Account.Code inAcc = Account.Code orig
    /\ Account.Permissions inAcc = Account.Permissions orig
    /\ UpdateAccount (StateWriter ctx) inAcc = (StateWriter ctx', None)
    /\ calls ctx' = calls ctx ++ [InvUpdateAccount inAcc]
    /\ tx ctx' = tx ctx
    /\ txe ctx' = txe ctx.
Proof.
  intros HP.
  destruct (Precheck_Ok_inv _ _ _ _ HP) as (orig & Hin & Hfee & Hpass & -> & Hupd & Hctx).
  exists orig. repeat (split; [assumption || reflexivity|]).
  rewrite Hctx. repeat split.
Qed.

(** X2. A failed [Precheck], read backwards: either the context is as it was,
    or the input account was found, passed every check, and the error is
    the one [UpdateAccount] returned for the fee-deducted account. *)
Theorem Precheck_error_cause ctx ctx' e :
  Precheck ctx = (ctx', Err e) ->
  ctx' = ctx
  \/ exists orig outAcc s,
       GetAccount (StateWriter ctx) (inputAddress ctx) = Ok (Some orig)
       /\ CallTx.Fee (tx ctx) <= TxInput.Amount (CallTx.Input (tx ctx))
       /\ PrecheckPasses ctx orig outAcc
       /\ UpdateAccount (StateWriter ctx) (charged (tx ctx) orig) = (s, Some e)
       /\ ctx' = record (InvUpdateAccount (charged (tx ctx) orig)) (setStateWriter s ctx).
Proof.
  unfold Precheck, PrecheckPasses, inputAddress. run.
  destruct (GetAccount _ _) as [[orig|]|e0] eqn:Hin; try (intros [= <- <-]; auto; fail).
  destruct (Z.ltb_spec (TxInput.Amount (CallTx.Input (tx ctx))) (CallTx.Fee (tx ctx)))
    as [Hlt|Hfee]; try (intros [= <- <-]; auto; fail).
  fold (charged (tx ctx) orig).
  destruct (CallTx.Address (tx ctx)) as [callee|].
  - destruct (hasCallPermission _ _) eqn:Hperm; cbn; try (intros [= <- <-]; auto; fail).
    destruct (IsRegisteredNativeContract callee) eqn:Hnative; cbn;
      try (intros [= <- <-]; auto; fail).
    destruct (GetAccount (StateWriter ctx) callee) as [out|e1] eqn:Hout;
      try (intros [= <- <-]; auto; fail).
    destruct (UpdateAccount _ _) as [s [e1|]] eqn:Hupd; try discriminate.
    intros [= <- <-]. right. exists orig, out, s. auto 10.
  - destruct (hasCreateContractPermission _ _) eqn:Hperm; cbn;
      try (intros [= <- <-]; auto; fail).
    destruct (UpdateAccount _ _) as [s [e1|]] eqn:Hupd; try discriminate.
    intros [= <- <-]. right. exists orig, None, s. auto 10.
Qed.

(** X3. [Precheck] keeps to the store: the chain tip, the mode, the
    transaction and the receipt are as before, and it records at most one
    call, an [UpdateAccount]. *)
Theorem Precheck_frame ctx :
  Tip (fst (Precheck ctx)) = Tip ctx
  /\ RunCall (fst (Precheck ctx)) = RunCall ctx
  /\ tx (fst (Precheck ctx)) = tx ctx
  /\ txe (fst (Precheck ctx)) = txe ctx
  /\ (calls (fst (Precheck ctx)) = calls ctx
      \/ exists acc, calls (fst (Precheck ctx)) = calls ctx ++ [InvUpdateAccount acc]).
Proof.
  destruct (Precheck ctx) as [ctx' [[inAcc outAcc]|e]] eqn:HP; cbn.
  - apply Precheck_Ok_inv in HP as (orig & _ & _ & _ & _ & _ & ->).
    cbn. repeat split. right. eauto.
  - apply Precheck_Err_inv in HP as [->|(inAcc & s & _ & ->)].
    + repeat split. now left.
    + cbn. repeat split. right. eauto.
Qed.

(** ** Further properties of [Deliver] *)

Lemma noCodeTarget_code target outAcc ex :
  noCodeTarget target outAcc = Some ex -> ExCode ex = ErrorCodeInvalidAddress.
Proof.
  unfold noCodeTarget. destruct outAcc as [out|].
  - destruct (_ =? _)%nat; [|discriminate]. now intros [= <-].
  - now intros [= <-].
Qed.

(** The early return of lines 164 to 189 in one equation. *)
Lemma Deliver_no_code_run ctx inAcc outAcc value target ex :
  CallTx.Address (tx ctx) = Some target ->
  noCodeTarget target outAcc = Some ex ->
  Deliver inAcc outAcc value ctx =
    (setTxe (withCallEvents ctx (Some ex) (TxExecution.PushError ex (txe ctx))) ctx, Ok tt).
Proof.
  intros Hto. unfold noCodeTarget, Deliver, CallEvents, withCallEvents, inputAddress.
  run. rewrite Hto. destruct outAcc as [out|].
  - destruct (_ =? _)%nat; [|discriminate]. intros [= <-]. cbn. now rewrite Hto.
  - intros [= <-]. cbn. now rewrite Hto.
Qed.

(** [Deliver] either reaches the machine or returns early for want of
    code at the target. *)
Lemma Deliver_classify ctx inAcc outAcc :
  (exists create txCache callee code,
     ReachesVM ctx inAcc outAcc create txCache callee code
     /\ match CallTx.Address (tx ctx) with
        | Some target => noCodeTarget target outAcc = None
        | None => True
        end)
  \/ (exists target ex,
        CallTx.Address (tx ctx) = Some target /\ noCodeTarget target outAcc = Some ex).
Proof.
  destruct (CallTx.Address (tx ctx)) as [target|] eqn:Hto.
  - destruct outAcc as [out|]; cbn.
    + destruct (Account.Code out) as [|b code] eqn:Hcode.
      * right. eauto.
      * left. eexists _, _, _, _. split; [|reflexivity].
        eapply ReachesCall; eauto. congruence.
    + right. eauto.
  - left. eexists _, _, _, _. split; [|exact I]. now apply ReachesCreate.
Qed.

(** X4. The success path.  When the invocation of line 202 returns no
    exception and [Sync] succeeds, [Deliver] returns nil; the store is the
    one [Sync] produced from the overlay the second invocation left, with
    the output of the first stored as the code of the callee on a
    creation; no exception is pushed, and the receipt holds the output of
    the first invocation.  The outcome of the second invocation is not
    looked at. *)
Theorem Deliver_success ctx inAcc outAcc value create txCache callee code s :
  ReachesVM ctx inAcc outAcc create txCache callee code ->
  let r1 := firstCall ctx txCache (Account.Address inAcc) callee code value in
  let r2 := secondCall ctx (Account.Address inAcc) callee value r1 in
  vmException r1 = None ->
  Sync (if create then InitCode (vmCache r2) callee (vmOutput r1) else vmCache r2)
       (StateWriter ctx) = (s, None) ->
  exists final,
    Deliver inAcc outAcc value ctx = (final, Ok tt)
    /\ StateWriter final = s
    /\ (exists i1 i2,
          calls final = calls ctx ++ [i1; i2; InvSync]
          /\ isCall i1 = true /\ isCall i2 = true)
    /\ TxExecution.Exceptions (txe final) = TxExecution.Exceptions (vmTxe r2)
    /\ TxExecution.Return (txe final) = vmOutput r1.
Proof.
  intros Hreach r1 r2 Hex Hsync.
  rewrite (Deliver_reaches _ _ _ value _ _ _ _ Hreach), DeliverCall_run.
  cbv zeta. fold r1. fold r2. rewrite Hex, Hsync.
  eexists. split; [reflexivity|]. cbn. split; [reflexivity|]. split.
  - eexists _, _. rewrite <- List.app_assoc. cbn. eauto.
  - unfold withCallEvents. destruct (CallTx.Address (tx ctx)); split; reflexivity.
Qed.

(** X5. When [Sync] fails, [Deliver] returns its error at once: the receipt is
    the one the machine left, with no touched-address event added and no
    result recorded, and the store is whatever the failed [Sync] left. *)
Theorem Deliver_sync_error ctx inAcc outAcc value create txCache callee code s e :
  ReachesVM ctx inAcc outAcc create txCache callee code ->
  let r1 := firstCall ctx txCache (Account.Address inAcc) callee code value in
  let r2 := secondCall ctx (Account.Address inAcc) callee value r1 in
  vmException r1 = None ->
  Sync (if create then InitCode (vmCache r2) callee (vmOutput r1) else vmCache r2)
       (StateWriter ctx) = (s, Some e) ->
  exists final,
    Deliver inAcc outAcc value ctx = (final, Err e)
    /\ StateWriter final = s
    /\ txe final = vmTxe r2.
Proof.
  intros Hreach r1 r2 Hex Hsync.
  rewrite (Deliver_reaches _ _ _ value _ _ _ _ Hreach), DeliverCall_run.
  cbv zeta. fold r1. fold r2. rewrite Hex, Hsync.
  eexists. split; [reflexivity|]. split; reflexivity.
Qed.

(** X6. [Deliver] never calls [UpdateAccount].  It records nothing at all, or
    two invocations of the machine, or these two followed by one [Sync]. *)
Theorem Deliver_calls_shape ctx inAcc outAcc value :
  exists l,
    calls (fst (Deliver inAcc outAcc value ctx)) = calls ctx ++ l
    /\ filter isUpdateAccount l = []
    /\ (l = []
        \/ exists i1 i2 rest,
             l = i1 :: i2 :: rest /\ isCall i1 = true /\ isCall i2 = true
             /\ (rest = [] \/ rest = [InvSync])).
Proof.
  destruct (Deliver_classify ctx inAcc outAcc)
    as [(create & txCache & callee & code & Hreach & _) | (target & ex & Hto & Hno)].
  - rewrite (Deliver_reaches _ _ _ value _ _ _ _ Hreach), DeliverCall_run.
    cbv zeta. destruct (vmException _) as [ex|].
    + eexists. cbn. split; [reflexivity|]. split; [reflexivity|].
      right. eexists _, _, _. eauto.
    + destruct (Sync _ _) as [s [e|]]; cbn; rewrite <- List.app_assoc; cbn;
        (eexists; split; [reflexivity|]; split; [reflexivity|];
         right; eexists _, _, _; eauto).
  - rewrite (Deliver_no_code_run _ _ _ value _ _ Hto Hno). cbn.
    exists []. rewrite app_nil_r. auto.
Qed.

(** X7. Of the transaction, [Deliver] writes the payload data only, and only
    when it reaches the machine: the input, the callee, the gas limit and
    the fee are as before, and the data is the constant of line 211 on a
    creation or a call to an account with code, and unchanged on the early
    return. *)
Theorem Deliver_tx_fields ctx inAcc outAcc value :
  let t' := tx (fst (Deliver inAcc outAcc value ctx)) in
  CallTx.Input t' = CallTx.Input (tx ctx)
  /\ CallTx.Address t' = CallTx.Address (tx ctx)
  /\ CallTx.GasLimit t' = CallTx.GasLimit (tx ctx)
  /\ CallTx.Fee t' = CallTx.Fee (tx ctx)
  /\ CallTx.Data t' =
       match CallTx.Address (tx ctx) with
       | None => debugData
       | Some target =>
           match noCodeTarget target outAcc with
           | Some _ => CallTx.Data (tx ctx)
           | None => debugData
           end
       end.
Proof.
  destruct (Deliver_classify ctx inAcc outAcc)
    as [(create & txCache & callee & code & Hreach & Hyes) | (target & ex & Hto & Hno)].
  - rewrite (Deliver_reaches _ _ _ value _ _ _ _ Hreach), DeliverCall_run.
    cbv zeta.
    assert (Hdata : match CallTx.Address (tx ctx) with
                    | None => debugData
                    | Some target =>
                        match noCodeTarget target outAcc with
                        | Some _ => CallTx.Data (tx ctx)
                        | None => debugData
                        end
                    end = debugData).
    { destruct (CallTx.Address (tx ctx)); [now rewrite Hyes | reflexivity]. }
    rewrite Hdata.
    destruct (vmException _) as [ex|]; [repeat split|].
    destruct (Sync _ _) as [s [e|]]; repeat split.
  - rewrite (Deliver_no_code_run _ _ _ value _ _ Hto Hno). cbn. rewrite Hto, Hno.
    repeat split.
Qed.

(** X8. Whenever [Deliver] returns nil, the receipt ends with the
    touched-address event of the sender followed, on a call, by the event
    of the receiver, both with the same exception or none.  On a creation
    the receipt gets no event for the address created. *)
Theorem Deliver_events ctx inAcc outAcc value final :
  Deliver inAcc outAcc value ctx = (final, Ok tt) ->
  exists before err,
    TxExecution.Events (txe final) =
      before ++ mkEvent (inputAddress ctx) err
             :: match CallTx.Address (tx ctx) with
                | Some target => [mkEvent target err]
                | None => []
                end.
Proof.
  destruct (Deliver_classify ctx inAcc outAcc)
    as [(create & txCache & callee & code & Hreach & _) | (target & ex & Hto & Hno)].
  - rewrite (Deliver_reaches _ _ _ value _ _ _ _ Hreach), DeliverCall_run.
    cbv zeta. unfold withCallEvents. destruct (vmException _) as [ex|].
    + intros [= <-]. eexists _, (Some ex).
      destruct (CallTx.Address (tx ctx)); cbn; [rewrite <- List.app_assoc|]; reflexivity.
    + destruct (Sync _ _) as [s [e|]]; [discriminate|]. intros [= <-]. eexists _, None.
      destruct (CallTx.Address (tx ctx)); cbn; [rewrite <- List.app_assoc|]; reflexivity.
  - rewrite (Deliver_no_code_run _ _ _ value _ _ Hto Hno). intros [= <-].
    unfold withCallEvents. rewrite Hto. eexists _, (Some ex). cbn.
    rewrite <- List.app_assoc. reflexivity.
Qed.

(** ** Further properties of [Execute] *)

Lemma Execute_precheck_Err ctx x t ctx1 e :
  Precheck (setTxe x (setTx t ctx)) = (ctx1, Err e) ->
  Execute x (PayloadCallTx t) ctx = (ctx1, Err e).
Proof.
  intros HP. unfold Execute, bind, modify, get. cbv beta iota. now rewrite HP.
Qed.

Lemma Execute_check ctx x t ctx1 inAcc outAcc :
  RunCall ctx = false ->
  Precheck (setTxe x (setTx t ctx)) = (ctx1, Ok (inAcc, outAcc)) ->
  Execute x (PayloadCallTx t) ctx =
    Check inAcc (uint64_sub (TxInput.Amount (CallTx.Input t)) (CallTx.Fee t)) ctx1.
Proof.
  intros Hrun HP.
  pose proof (Precheck_Ok_inv _ _ _ _ HP) as (orig & _ & _ & _ & _ & _ & Hctx1).
  assert (Htx : tx ctx1 = t) by (rewrite Hctx1; reflexivity).
  assert (Hrun1 : RunCall ctx1 = false) by (rewrite Hctx1; exact Hrun).
  unfold Execute, bind, modify, get. cbv beta iota. rewrite HP. cbv beta iota.
  now rewrite Hrun1, Htx.
Qed.

(** X10. An error of [Precheck] is the error of [Execute], in either mode:
    neither [Check] nor [Deliver] runs, so the machine is not invoked and
    the receipt is the one handed in. *)
Theorem Execute_precheck_error ctx x t ctx1 e :
  Precheck (setTxe x (setTx t ctx)) = (ctx1, Err e) ->
  Execute x (PayloadCallTx t) ctx = (ctx1, Err e)
  /\ filter isCall (calls ctx1) = filter isCall (calls ctx)
  /\ filter isSync (calls ctx1) = filter isSync (calls ctx)
  /\ txe ctx1 = x
  /\ tx ctx1 = t.
Proof.
  intros HP. split; [now apply Execute_precheck_Err|].
  apply Precheck_Err_inv in HP as [->|(inAcc & s & _ & ->)]; cbn.
  - repeat split.
  - rewrite !filter_app. cbn. rewrite !app_nil_r. repeat split.
Qed.

(** X11. In mempool mode [Execute] of a [CallTx] never invokes the machine
    and never syncs an overlay, whatever [Precheck] answers; the receipt
    stays the one handed in and the transaction the one submitted. *)
Theorem Execute_mempool_never_invokes ctx x t :
  RunCall ctx = false ->
  filter isCall (calls (fst (Execute x (PayloadCallTx t) ctx))) = filter isCall (calls ctx)
  /\ filter isSync (calls (fst (Execute x (PayloadCallTx t) ctx))) =
       filter isSync (calls ctx)
  /\ txe (fst (Execute x (PayloadCallTx t) ctx)) = x
  /\ tx (fst (Execute x (PayloadCallTx t) ctx)) = t.
Proof.
  intros Hrun.
  destruct (Precheck (setTxe x (setTx t ctx))) as [ctx1 [[inAcc outAcc]|e]] eqn:HP.
  - rewrite (Execute_check _ _ _ _ _ _ Hrun HP), Check_run.
    apply Precheck_Ok_inv in HP as (orig & _ & _ & _ & _ & _ & ->).
    destruct (UpdateAccount _ _) as [s err]. cbn.
    rewrite !filter_app. cbn. rewrite !app_nil_r. repeat split.
  - rewrite (Execute_precheck_Err _ _ _ _ _ HP).
    apply Precheck_Err_inv in HP as [->|(inAcc & s & _ & ->)]; cbn.
    + repeat split.
    + rewrite !filter_app. cbn. rewrite !app_nil_r. repeat split.
Qed.

(** X12. In mempool mode, for an account that can afford the amount, the two
    persists take the fee and then the rest: with
    [0 <= fee <= amount <= balance < 2^64] nothing wraps, the first account
    persisted has [balance - fee] and the second [balance - amount]. *)
Theorem Execute_mempool_reserves_amount ctx x t orig outAcc s :
  RunCall ctx = false ->
  GetAccount (StateWriter ctx) (TxInput.Address (CallTx.Input t)) = Ok (Some orig) ->
  PrecheckPasses (setTxe x (setTx t ctx)) orig outAcc ->
  UpdateAccount (StateWriter ctx) (charged t orig) = (s, None) ->
  0 <= CallTx.Fee t <= TxInput.Amount (CallTx.Input t) ->
  TxInput.Amount (CallTx.Input t) <= Account.Balance orig < 2 ^ 64 ->
  exists acc,
    calls (fst (Execute x (PayloadCallTx t) ctx)) =
      calls ctx ++ [InvUpdateAccount (charged t orig); InvUpdateAccount acc]
    /\ Account.Balance (charged t orig) = Account.Balance orig - CallTx.Fee t
    /\ Account.Balance acc = Account.Balance orig - TxInput.Amount (CallTx.Input t)
    /\ Account.Address acc = Account.Address orig.
Proof.
  intros Hrun Hin Hpass Hupd Hfee Hbal.
  assert (HP : Precheck (setTxe x (setTx t ctx)) =
               (record (InvUpdateAccount (charged t orig))
                  (setStateWriter s (setTxe x (setTx t ctx))),
                Ok (charged t orig, outAcc))).
  { rewrite (Precheck_passes (setTxe x (setTx t ctx)) orig outAcc Hin ltac:(cbn; lia) Hpass).
    cbn. now rewrite Hupd. }
  rewrite (Execute_check _ _ _ _ _ _ Hrun HP), Check_run. cbn.
  destruct (UpdateAccount s _) as [s' err]. cbn.
  eexists. rewrite <- List.app_assoc. split; [reflexivity|].
  rewrite reserved_Balance. cbn. unfold uint64_sub, wrap64.
  rewrite (Z.mod_small (TxInput.Amount (CallTx.Input t) - CallTx.Fee t)) by lia.
  rewrite (Z.mod_small (Account.Balance orig - CallTx.Fee t)) by lia.
  split; [reflexivity|]. split.
  - rewrite Z.mod_small by lia. lia.
  - unfold reserved. now case_bool_decide.
Qed.

(** X13. In block mode, a transaction whose first invocation raises an
    exception costs the fee and nothing else: [Execute] returns nil, the
    store is the one the persist of the fee-deducted account produced, no
    overlay is synced, and the receipt ends with the exception pushed. *)
Theorem Execute_block_vm_exception ctx x t ctx1 inAcc outAcc create txCache callee code ex :
  RunCall ctx = true ->
  Precheck (setTxe x (setTx t ctx)) = (ctx1, Ok (inAcc, outAcc)) ->
  ReachesVM ctx1 inAcc outAcc create txCache callee code ->
  vmException (firstCall ctx1 txCache (Account.Address inAcc) callee code
                 (uint64_sub (TxInput.Amount (CallTx.Input t)) (CallTx.Fee t))) = Some ex ->
  exists final,
    Execute x (PayloadCallTx t) ctx = (final, Ok tt)
    /\ UpdateAccount (StateWriter ctx) inAcc = (StateWriter final, None)
    /\ filter isUpdateAccount (calls final) =
         filter isUpdateAccount (calls ctx) ++ [InvUpdateAccount inAcc]
    /\ filter isSync (calls final) = filter isSync (calls ctx)
    /\ exists exs pushed,
         TxExecution.Exceptions (txe final) = exs ++ [pushed]
         /\ ExCode pushed = ExCode ex.
Proof.
  intros Hrun HP Hreach Hex.
  destruct (Execute_deliver _ _ _ _ _ _ Hrun HP) as [-> _].
  apply Precheck_Ok_inv in HP as (orig & _ & _ & _ & _ & Hupd & Hctx1).
  rewrite (Deliver_reaches _ _ _ _ _ _ _ _ Hreach), DeliverCall_run.
  cbv zeta. rewrite Hex. eexists. split; [reflexivity|]. cbn.
  split; [exact Hupd|].
  assert (Hcalls : calls ctx1 = calls ctx ++ [InvUpdateAccount inAcc])
    by (rewrite Hctx1; reflexivity).
  rewrite Hcalls, !filter_app. cbn. rewrite !app_nil_r.
  repeat split. unfold withCallEvents.
  destruct (CallTx.Address (tx ctx1)); cbn; eexists _, _; split; reflexivity.
Qed.

(** X14. In block mode, a call whose target is missing or holds no code costs
    the fee and nothing else: [Execute] returns nil, the only call made is
    the persist of the fee-deducted account, and the receipt handed in
    gains one [InvalidAddress] exception and the events of sender and
    target carrying it. *)
Theorem Execute_block_no_code_target ctx x t ctx1 inAcc outAcc target ex :
  RunCall ctx = true ->
  Precheck (setTxe x (setTx t ctx)) = (ctx1, Ok (inAcc, outAcc)) ->
  CallTx.Address t = Some target ->
  noCodeTarget target outAcc = Some ex ->
  exists final,
    Execute x (PayloadCallTx t) ctx = (final, Ok tt)
    /\ UpdateAccount (StateWriter ctx) inAcc = (StateWriter final, None)
    /\ calls final = calls ctx ++ [InvUpdateAccount inAcc]
    /\ tx final = t
    /\ ExCode ex = ErrorCodeInvalidAddress
    /\ TxExecution.Exceptions (txe final) = TxExecution.Exceptions x ++ [ex]
    /\ TxExecution.Events (txe final) =
         TxExecution.Events x
         ++ [mkEvent (TxInput.Address (CallTx.Input t)) (Some ex); mkEvent target (Some ex)].
Proof.
  intros Hrun HP Hto Hno.
  destruct (Execute_deliver _ _ _ _ _ _ Hrun HP) as [-> _].
  apply Precheck_Ok_inv in HP as (orig & _ & _ & _ & _ & Hupd & Hctx1).
  assert (Htx : tx ctx1 = t) by (rewrite Hctx1; reflexivity).
  assert (Htxe : txe ctx1 = x) by (rewrite Hctx1; reflexivity).
  assert (Hcalls : calls ctx1 = calls ctx ++ [InvUpdateAccount inAcc])
    by (rewrite Hctx1; reflexivity).
  rewrite (Deliver_no_code_run ctx1 _ _ _ target ex) by (rewrite ?Htx; assumption).
  eexists. split; [reflexivity|]. cbn.
  unfold withCallEvents, inputAddress. rewrite Htx, Hto, Htxe. cbn.
  rewrite <- List.app_assoc. cbn.
  repeat split; try assumption. now apply noCodeTarget_code with target outAcc.
Qed.

(** X15. In block mode, once [Precheck] has passed and the machine is reached,
    the calls made are the persist of the fee-deducted account, then the
    two invocations, both with the value [amount - fee] (no wrap-around for
    64-bit operands), the first with the data and the gas limit of the
    transaction, the second with the constant data and the gas the first
    left, then at most one [Sync]. *)
Theorem Execute_block_invocations ctx x t ctx1 inAcc outAcc create txCache callee code :
  RunCall ctx = true ->
  Precheck (setTxe x (setTx t ctx)) = (ctx1, Ok (inAcc, outAcc)) ->
  ReachesVM ctx1 inAcc outAcc create txCache callee code ->
  0 <= CallTx.Fee t ->
  TxInput.Amount (CallTx.Input t) < 2 ^ 64 ->
  let value := TxInput.Amount (CallTx.Input t) - CallTx.Fee t in
  let r1 := firstCall ctx1 txCache (Account.Address inAcc) callee code value in
  exists rest,
    calls (fst (Execute x (PayloadCallTx t) ctx)) =
      calls ctx
      ++ InvUpdateAccount inAcc
      :: InvCall (Account.Address inAcc) callee code (CallTx.Data t) value (CallTx.GasLimit t)
      :: InvCall (Account.Address inAcc) callee (GetCode (vmCache r1) erc20Address)
           debugData value (vmGas r1)
      :: rest
    /\ (rest = [] \/ rest = [InvSync]).
Proof.
  intros Hrun HP Hreach Hlo Hhi value r1.
  destruct (Execute_deliver _ _ _ _ _ _ Hrun HP) as [-> Hvalue].
  rewrite (Hvalue Hlo Hhi). fold value.
  apply Precheck_Ok_inv in HP as (orig & _ & _ & _ & _ & Hupd & Hctx1).
  assert (Htx : tx ctx1 = t) by (rewrite Hctx1; reflexivity).
  assert (Hcalls : calls ctx1 = calls ctx ++ [InvUpdateAccount inAcc])
    by (rewrite Hctx1; reflexivity).
  rewrite (Deliver_reaches _ _ _ _ _ _ _ _ Hreach), DeliverCall_run.
  cbv zeta. fold r1.
  destruct (vmException r1) as [ex|].
  - exists []. cbn. rewrite Hcalls, Htx, <- List.app_assoc. cbn. auto.
  - destruct (Sync _ _) as [s [e|]]; exists [InvSync]; cbn;
      rewrite Hcalls, Htx, <- !List.app_assoc; cbn; auto.
Qed.

(** X16. With a machine that only appends to the receipt, so does [Deliver]:
    the events and the exceptions recorded before are a prefix of those
    recorded after, whatever the outcome. *)
Theorem Deliver_receipt_append_only ctx inAcc outAcc value :
  AppendOnly ->
  (exists evs, TxExecution.Events (txe (fst (Deliver inAcc outAcc value ctx))) =
                 TxExecution.Events (txe ctx) ++ evs)
  /\ (exists exs, TxExecution.Exceptions (txe (fst (Deliver inAcc outAcc value ctx))) =
                    TxExecution.Exceptions (txe ctx) ++ exs).
Proof.
  intros Happend.
  destruct (Deliver_classify ctx inAcc outAcc)
    as [(create & txCache & callee & code & Hreach & _) | (target & ex & Hto & Hno)].
  - rewrite (Deliver_reaches _ _ _ value _ _ _ _ Hreach), DeliverCall_run.
    cbv zeta. unfold afterCalls.
    set (r1 := firstCall ctx txCache (Account.Address inAcc) callee code value).
    set (r2 := secondCall ctx (Account.Address inAcc) callee value r1).
    destruct (Happend (tipParams ctx) (Account.Address inAcc) txCache (txe ctx)
                (Account.Address inAcc) callee code (CallTx.Data (tx ctx)) value
                (CallTx.GasLimit (tx ctx))) as [(evs1 & Hev1) (exs1 & Hex1)].
    destruct (Happend (tipParams ctx) (Account.Address inAcc) (vmCache r1) (vmTxe r1)
                (Account.Address inAcc) callee (GetCode (vmCache r1) erc20Address)
                debugData value (vmGas r1)) as [(evs2 & Hev2) (exs2 & Hex2)].
    change (TxExecution.Events (vmTxe r1) = TxExecution.Events (txe ctx) ++ evs1) in Hev1.
    change (TxExecution.Exceptions (vmTxe r1) = TxExecution.Exceptions (txe ctx) ++ exs1)
      in Hex1.
    change (TxExecution.Events (vmTxe r2) = TxExecution.Events (vmTxe r1) ++ evs2) in Hev2.
    change (TxExecution.Exceptions (vmTxe r2) = TxExecution.Exceptions (vmTxe r1) ++ exs2)
      in Hex2.
    assert (Hev : TxExecution.Events (vmTxe r2) = TxExecution.Events (txe ctx) ++ evs1 ++ evs2)
      by (rewrite Hev2, Hev1; now rewrite <- List.app_assoc).
    assert (Hex : TxExecution.Exceptions (vmTxe r2) =
                  TxExecution.Exceptions (txe ctx) ++ exs1 ++ exs2)
      by (rewrite Hex2, Hex1; now rewrite <- List.app_assoc).
    clearbody r2. clearbody r1. unfold withCallEvents.
    assert (Hdone : forall evs exs (x' : TxExecution.t),
              TxExecution.Events x' = TxExecution.Events (vmTxe r2) ++ evs ->
              TxExecution.Exceptions x' = TxExecution.Exceptions (vmTxe r2) ++ exs ->
              (exists evs', TxExecution.Events x' = TxExecution.Events (txe ctx) ++ evs')
              /\ (exists exs', TxExecution.Exceptions x' =
                                TxExecution.Exceptions (txe ctx) ++ exs')).
    { intros evs exs x' -> ->. rewrite Hev, Hex, <- !List.app_assoc. eauto. }
    destruct (vmException r1) as [ex|].
    + destruct (CallTx.Address (tx ctx)).
      * apply (Hdone [mkEvent (inputAddress ctx) (Some ex); mkEvent z (Some ex)]
                 [callError ex (vmTxe r2)]); cbn; [now rewrite <- List.app_assoc | reflexivity].
      * apply (Hdone [mkEvent (inputAddress ctx) (Some ex)] [callError ex (vmTxe r2)]);
          reflexivity.
    + destruct (Sync _ _) as [s [e|]].
      * apply (Hdone [] []); cbn; now rewrite app_nil_r.
      * destruct (CallTx.Address (tx ctx)).
        -- apply (Hdone [mkEvent (inputAddress ctx) None; mkEvent z None] []); cbn;
             [now rewrite <- List.app_assoc | now rewrite app_nil_r].
        -- apply (Hdone [mkEvent (inputAddress ctx) None] []); cbn;
             [reflexivity | now rewrite app_nil_r].
  - rewrite (Deliver_no_code_run _ _ _ value _ _ Hto Hno). cbn.
    unfold withCallEvents. rewrite Hto. cbn. rewrite <- List.app_assoc. eauto.
Qed.

End Properties.

(** * The phases on concrete transactions *)

Import Mem.

(** C9 on a store that does not know alice. *)
Lemma Precheck_unknown_input_witness :
  Precheck (context ∅ true toBob) =
    (context ∅ true toBob, Err (ErrCode ErrorCodeInvalidAddress)).
Proof.
  apply (Precheck_unknown_input (context ∅ true toBob)). reflexivity.
Defined.

(** C8 as stated fails: the fee (20) exceeds the amount (5), the input
    account is unknown, and the error is [InvalidAddress], not
    [InsufficientFunds]. *)
Lemma Precheck_fee_exceeds_amount_unknown_input :
  CallTx.Fee underpaid > TxInput.Amount (CallTx.Input underpaid)
  /\ snd (Precheck (context ∅ true underpaid)) = Err (ErrCode ErrorCodeInvalidAddress)
  /\ snd (Precheck (context ∅ true underpaid)) <> Err (ErrCode ErrorCodeInsufficientFunds).
Proof.
  split; [reflexivity|]. split; [reflexivity|]. discriminate.
Qed.

(** C8, amended, for alice with balance 100. *)
Lemma Precheck_fee_exceeds_amount_witness :
  Precheck (context (store 100 []) true underpaid) =
    (context (store 100 []) true underpaid, Err (ErrCode ErrorCodeInsufficientFunds)).
Proof.
  apply (Precheck_fee_exceeds_amount (context (store 100 []) true underpaid) (aliceAcc 100)).
  - reflexivity.
  - reflexivity.
Defined.

(** C10 on the last of the paths: alice may call, the target is the native
    contract; the fee was taken off the fetched copy only. *)
Lemma Precheck_failure_leaves_store_witness :
  exists e, Precheck (context (store 100 []) true toNative) =
              (context (store 100 []) true toNative, Err e).
Proof.
  eexists.
  apply (Precheck_failure_leaves_store (context (store 100 []) true toNative)).
  apply (NativeContractTarget _ (aliceAcc 100) nativeAddress);
    first [reflexivity | vm_compute; discriminate].
Defined.

(** C5 with a balance of 3 and a fee of 5: [Precheck] succeeds and the
    balance persisted is [2^64 - 2]. *)
Lemma Precheck_Check_unchecked_subtraction_witness :
  Account.Balance (aliceAcc 3) < CallTx.Fee create
  /\ Precheck (context (store 3 []) false create) =
       (record (InvUpdateAccount (charged create (aliceAcc 3)))
          (setStateWriter (<[alice := charged create (aliceAcc 3)]> (store 3 []))
             (context (store 3 []) false create)),
        Ok (charged create (aliceAcc 3), None))
  /\ Account.Balance (charged create (aliceAcc 3)) = (3 - 5) mod 2 ^ 64
  /\ forall acc value ctx2, exists acc',
       calls (fst (Check acc value ctx2)) = calls ctx2 ++ [InvUpdateAccount acc']
       /\ Account.Balance acc' = (Account.Balance acc - value) mod 2 ^ 64.
Proof.
  split; [reflexivity|].
  apply (Precheck_Check_unchecked_subtraction
           (context (store 3 []) false create) (aliceAcc 3) None
           (<[alice := charged create (aliceAcc 3)]> (store 3 []))).
  - reflexivity.
  - vm_compute. discriminate.
  - split; reflexivity.
  - reflexivity.
Defined.

(** C7 on a creation by alice with balance 100: the account persisted by
    [Check] has the balance [100 - 5 - 15] and the sequence number 1. *)
Lemma Execute_mempool_witness :
  exists acc final r,
    Execute emptyTxe (PayloadCallTx create) (context (store 100 []) false create)
      = (final, r)
    /\ calls final =
         calls (context (store 100 []) false create)
         ++ [InvUpdateAccount (charged create (aliceAcc 100)); InvUpdateAccount acc]
    /\ filter isCall (calls final) =
         filter isCall (calls (context (store 100 []) false create))
    /\ txe final = emptyTxe
    /\ tx final = create
    /\ StateWriter final =
         fst (Mem.UpdateAccount (<[alice := charged create (aliceAcc 100)]> (store 100 [])) acc)
    /\ r = match snd (Mem.UpdateAccount
                        (<[alice := charged create (aliceAcc 100)]> (store 100 [])) acc) with
           | Some e => Err e
           | None => Ok tt
           end
    /\ Account.Address acc = alice
    /\ Account.Balance acc = (95 - (20 - 5) mod 2 ^ 64) mod 2 ^ 64
    /\ Account.Sequence acc = (0 + 1) mod 2 ^ 64
    /\ Account.Code acc = []
    /\ Account.Permissions acc = 12.
Proof.
  apply (Execute_mempool (context (store 100 []) false create) emptyTxe create
           (prechecked 100 [] false create) (charged create (aliceAcc 100)) None).
  - reflexivity.
  - reflexivity.
Defined.

(** C3 on a call to bob when bob holds no code. *)
Lemma Deliver_no_code_target_witness :
  exists ex,
    ExCode ex = ErrorCodeInvalidAddress
    /\ Deliver (aliceAcc 95) (Some (bobAcc [])) 15 (context (store 95 []) true toBob) =
         (setTxe (TxExecution.Input bob (Some ex)
                    (TxExecution.Input alice (Some ex)
                       (TxExecution.PushError ex emptyTxe)))
            (context (store 95 []) true toBob),
          Ok tt).
Proof.
  apply (Deliver_no_code_target (context (store 95 []) true toBob)
           (aliceAcc 95) (Some (bobAcc [])) 15 bob).
  - reflexivity.
  - right. exists (bobAcc []). split; reflexivity.
Defined.

(** C2 on a call to bob when the code of bob starts with the invalid
    opcode: the toy machine moves the value in the overlay and then
    raises, and the store keeps alice at 95 and bob at 0. *)
Lemma Deliver_vm_exception_witness :
  exists final,
    Deliver (aliceAcc 95) (Some (bobAcc [xfe])) 15 (context (store 95 [xfe]) true toBob)
      = (final, Ok tt)
    /\ StateWriter final = store 95 [xfe]
    /\ (exists i1 i2, calls final = [] ++ [i1; i2] /\ isCall i1 = true /\ isCall i2 = true)
    /\ TxExecution.Exceptions (txe final) =
         [] ++ [mkException (ErrorCodeOther 1)
                  ("call error: invalid opcode" +:+ String (ascii_of_nat 10) "trace: CALL;CALL;")]
    /\ ErrorCodeOther 1 = ErrorCodeOther 1.
Proof.
  apply (Deliver_vm_exception (context (store 95 [xfe]) true toBob)
           (aliceAcc 95) (Some (bobAcc [xfe])) 15 false
           (NewState (store 95 [xfe])) bob [xfe]
           (mkException (ErrorCodeOther 1) "invalid opcode")).
  - exact (ReachesCall (context (store 95 [xfe]) true toBob) (aliceAcc 95)
             (Some (bobAcc [xfe])) bob (bobAcc [xfe]) eq_refl eq_refl
             ltac:(discriminate)).
  - reflexivity.
Defined.

(** C1. alice calls bob with 5000 gas; bob and the contract at the address
    of line 205 hold one byte of code each.  The invocation of line 202
    succeeds and leaves 4999, so the call used 1; the receipt records 2,
    the second invocation included. *)
Theorem Deliver_gas_used_counts_second_call :
  let ctx := context (tokenStore 100 [x00]) true toBob in
  let ctx1 := fst (Precheck ctx) in
  let r1 := firstCall ctx1 (NewState (StateWriter ctx1)) alice bob [x00] 15 in
  let final := Execute emptyTxe (PayloadCallTx toBob) ctx in
  snd final = Ok tt
  /\ vmException r1 = None
  /\ CallTx.GasLimit toBob - vmGas r1 = 1
  /\ TxExecution.GasUsed (txe (fst final)) = 2.
Proof.
  vm_compute. repeat split.
Qed.

(** C4. alice calls bob with the payload data [[0x01]]; when [Execute]
    returns, the data of the transaction is the constant of line 211. *)
Theorem Deliver_rewrites_payload_data :
  let ctx := context (store 100 [x00]) true toBob in
  let final := Execute emptyTxe (PayloadCallTx toBob) ctx in
  snd final = Ok tt
  /\ CallTx.Data toBob = [x01]
  /\ CallTx.Data (tx (fst final)) = debugData
  /\ CallTx.Data (tx (fst final)) <> CallTx.Data toBob.
Proof.
  vm_compute. repeat split. discriminate.
Qed.

(** ** The further properties on concrete transactions *)

(** alice, with balance 100, passes [Precheck] for a creation. *)
Lemma Precheck_success_inversion_witness :
  exists orig,
    GetAccount (store 100 []) alice = Ok (Some orig)
    /\ CallTx.Fee create <= TxInput.Amount (CallTx.Input create)
    /\ PrecheckPasses (context (store 100 []) false create) orig None
    /\ Account.Balance (charged create (aliceAcc 100)) =
         (Account.Balance orig - CallTx.Fee create) mod 2 ^ 64
    /\ Account.Address (charged create (aliceAcc 100)) = Account.Address orig
    /\ Account.Sequence (charged create (aliceAcc 100)) = Account.Sequence orig
    /\ Account.Code (charged create (aliceAcc 100)) = Account.Code orig
    /\ Account.Permissions (charged create (aliceAcc 100)) = Account.Permissions orig
    /\ Mem.UpdateAccount (store 100 []) (charged create (aliceAcc 100)) =
         (StateWriter (prechecked 100 [] false create), None)
    /\ calls (prechecked 100 [] false create) =
         [] ++ [InvUpdateAccount (charged create (aliceAcc 100))]
    /\ tx (prechecked 100 [] false create) = create
    /\ txe (prechecked 100 [] false create) = emptyTxe.
Proof.
  apply (Precheck_success_inversion (context (store 100 []) false create)
           (prechecked 100 [] false create) (charged create (aliceAcc 100)) None).
  reflexivity.
Defined.

(** On a store that does not know alice the error leaves the context alone. *)
Lemma Precheck_error_cause_witness :
  context ∅ true toBob = context ∅ true toBob
  \/ exists orig outAcc s,
       GetAccount (StateWriter (context ∅ true toBob)) (inputAddress (context ∅ true toBob))
         = Ok (Some orig)
       /\ CallTx.Fee toBob <= TxInput.Amount (CallTx.Input toBob)
       /\ PrecheckPasses (context ∅ true toBob) orig outAcc
       /\ Mem.UpdateAccount ∅ (charged toBob orig) =
            (s, Some (ErrCode ErrorCodeInvalidAddress))
       /\ context ∅ true toBob =
            record (InvUpdateAccount (charged toBob orig))
              (setStateWriter s (context ∅ true toBob)).
Proof.
  apply (Precheck_error_cause (context ∅ true toBob) (context ∅ true toBob)
           (ErrCode ErrorCodeInvalidAddress)).
  reflexivity.
Defined.

(** A creation by alice that succeeds: the store synced holds the output
    of the first invocation as the code of the new account. *)
Lemma Deliver_success_witness :
  exists final,
    Deliver (aliceAcc 95) None 15 (context (store 95 []) true create) = (final, Ok tt)
    /\ StateWriter final =
         fst (Mem.Sync
                (InitCode
                   (vmCache
                      (secondCall (context (store 95 []) true create) alice
                         (NewContractAddress alice 1) 15
                         (firstCall (context (store 95 []) true create)
                            (CreateAccount (IncSequence (NewState (store 95 [])) alice)
                               (NewContractAddress alice 1))
                            alice (NewContractAddress alice 1) [x00] 15)))
                   (NewContractAddress alice 1) [x00])
                (store 95 []))
    /\ (exists i1 i2,
          calls final = [] ++ [i1; i2; InvSync] /\ isCall i1 = true /\ isCall i2 = true)
    /\ TxExecution.Exceptions (txe final) = []
    /\ TxExecution.Return (txe final) = [x00].
Proof.
  apply (Deliver_success (context (store 95 []) true create) (aliceAcc 95) None 15 true
           (CreateAccount (IncSequence (NewState (store 95 [])) alice)
              (NewContractAddress alice 1))
           (NewContractAddress alice 1) [x00]).
  - exact (ReachesCreate (context (store 95 []) true create) (aliceAcc 95) None eq_refl).
  - reflexivity.
  - reflexivity.
Defined.

(** The same call to bob over the store that refuses to sync. *)
Lemma Deliver_sync_error_witness :
  exists final,
    @Deliver unsynced (aliceAcc 95) (Some (bobAcc [x00])) 15 unsyncedContext
      = (final, Err (ErrBackend "sync refused"))
    /\ StateWriter final = store 95 [x00]
    /\ txe final =
         vmTxe (@secondCall unsynced unsyncedContext alice bob 15
                  (@firstCall unsynced unsyncedContext (NewState (store 95 [x00]))
                     alice bob [x00] 15)).
Proof.
  apply (@Deliver_sync_error unsynced unsyncedContext (aliceAcc 95) (Some (bobAcc [x00]))
           15 false (NewState (store 95 [x00])) bob [x00] (store 95 [x00])
           (ErrBackend "sync refused")).
  - exact (@ReachesCall unsynced unsyncedContext (aliceAcc 95) (Some (bobAcc [x00]))
             bob (bobAcc [x00]) eq_refl eq_refl ltac:(discriminate)).
  - reflexivity.
  - reflexivity.
Defined.

(** The call to bob without code returns nil with the two events. *)
Lemma Deliver_events_witness :
  exists before err,
    TxExecution.Events
      (txe (fst (Deliver (aliceAcc 95) (Some (bobAcc [])) 15
                   (context (store 95 []) true toBob)))) =
      before ++ [mkEvent alice err; mkEvent bob err].
Proof.
  apply (Deliver_events (context (store 95 []) true toBob) (aliceAcc 95)
           (Some (bobAcc [])) 15).
  reflexivity.
Defined.

(** The call to bob with one byte of code and 5000 gas: the receipt
    records the gas left by the second invocation. *)
Lemma Deliver_receipt_witness :
  let ctx := context (store 95 [x00]) true toBob in
  let final := fst (Deliver (aliceAcc 95) (Some (bobAcc [x00])) 15 ctx) in
  let r1 := firstCall ctx (NewState (store 95 [x00])) alice bob [x00] 15 in
  let r2 := secondCall ctx alice bob 15 r1 in
  TxExecution.GasUsed (txe final) = (5000 - vmGas r2) mod 2 ^ 64
  /\ TxExecution.Return (txe final) = vmOutput r1
  /\ exists rest,
       calls final =
         [] ++ InvCall alice bob [x00] [x01] 15 5000
            :: InvCall alice bob (GetCode (vmCache r1) erc20Address) debugData 15 (vmGas r1)
            :: rest.
Proof.
  apply (Deliver_receipt (context (store 95 [x00]) true toBob) (aliceAcc 95)
           (Some (bobAcc [x00])) 15 false (NewState (store 95 [x00])) bob [x00]).
  - exact (ReachesCall (context (store 95 [x00]) true toBob) (aliceAcc 95)
             (Some (bobAcc [x00])) bob (bobAcc [x00]) eq_refl eq_refl ltac:(discriminate)).
  - reflexivity.
Defined.

(** alice is unknown to the store: [Execute] fails in block mode too. *)
Lemma Execute_precheck_error_witness :
  Execute emptyTxe (PayloadCallTx toBob) (context ∅ true toBob) =
    (context ∅ true toBob, Err (ErrCode ErrorCodeInvalidAddress))
  /\ filter isCall (calls (context ∅ true toBob)) = filter isCall []
  /\ filter isSync (calls (context ∅ true toBob)) = filter isSync []
  /\ txe (context ∅ true toBob) = emptyTxe
  /\ tx (context ∅ true toBob) = toBob.
Proof.
  apply (Execute_precheck_error (context ∅ true toBob) emptyTxe toBob
           (context ∅ true toBob) (ErrCode ErrorCodeInvalidAddress)).
  reflexivity.
Defined.

(** A call to bob in mempool mode. *)
Lemma Execute_mempool_never_invokes_witness :
  let final := fst (Execute emptyTxe (PayloadCallTx toBob)
                      (context (store 100 [x00]) false toBob)) in
  filter isCall (calls final) = filter isCall []
  /\ filter isSync (calls final) = filter isSync []
  /\ txe final = emptyTxe /\ tx final = toBob.
Proof.
  apply (Execute_mempool_never_invokes (context (store 100 [x00]) false toBob)
           emptyTxe toBob).
  reflexivity.
Defined.

(** alice has 100 and sends 20 with a fee of 5: 95, then 80. *)
Lemma Execute_mempool_reserves_amount_witness :
  exists acc,
    calls (fst (Execute emptyTxe (PayloadCallTx create)
                  (context (store 100 []) false create))) =
      [] ++ [InvUpdateAccount (charged create (aliceAcc 100)); InvUpdateAccount acc]
    /\ Account.Balance (charged create (aliceAcc 100)) = 100 - 5
    /\ Account.Balance acc = 100 - 20
    /\ Account.Address acc = alice.
Proof.
  apply (Execute_mempool_reserves_amount (context (store 100 []) false create) emptyTxe
           create (aliceAcc 100) None (StateWriter (prechecked 100 [] false create))).
  - reflexivity.
  - reflexivity.
  - split; reflexivity.
  - reflexivity.
  - cbn. lia.
  - cbn. lia.
Defined.

(** alice calls bob whose code starts with the invalid opcode: the store
    ends with alice at 95 and bob at 0. *)
Lemma Execute_block_vm_exception_witness :
  exists final,
    Execute emptyTxe (PayloadCallTx toBob) (context (store 100 [xfe]) true toBob)
      = (final, Ok tt)
    /\ Mem.UpdateAccount (store 100 [xfe]) (charged toBob (aliceAcc 100)) =
         (StateWriter final, None)
    /\ filter isUpdateAccount (calls final) =
         filter isUpdateAccount [] ++ [InvUpdateAccount (charged toBob (aliceAcc 100))]
    /\ filter isSync (calls final) = filter isSync []
    /\ exists exs pushed,
         TxExecution.Exceptions (txe final) = exs ++ [pushed]
         /\ ExCode pushed = ErrorCodeOther 1.
Proof.
  apply (Execute_block_vm_exception (context (store 100 [xfe]) true toBob) emptyTxe toBob
           (prechecked 100 [xfe] true toBob) (charged toBob (aliceAcc 100))
           (Some (bobAcc [xfe])) false
           (NewState (StateWriter (prechecked 100 [xfe] true toBob))) bob [xfe]
           (mkException (ErrorCodeOther 1) "invalid opcode")).
  - reflexivity.
  - reflexivity.
  - exact (ReachesCall (prechecked 100 [xfe] true toBob) (charged toBob (aliceAcc 100))
             (Some (bobAcc [xfe])) bob (bobAcc [xfe]) eq_refl eq_refl ltac:(discriminate)).
  - reflexivity.
Defined.

(** alice calls an address the store does not know. *)
Lemma Execute_block_no_code_target_witness :
  exists final,
    Execute emptyTxe (PayloadCallTx toNobody) (context (store 100 []) true toNobody)
      = (final, Ok tt)
    /\ Mem.UpdateAccount (store 100 []) (charged toNobody (aliceAcc 100)) =
         (StateWriter final, None)
    /\ calls final = [] ++ [InvUpdateAccount (charged toNobody (aliceAcc 100))]
    /\ tx final = toNobody
    /\ ExCode (ErrorCodef ErrorCodeInvalidAddress
                 ("CallTx to an address (" +:+ AddressString 77 +:+ ") that does not exist"))
       = ErrorCodeInvalidAddress
    /\ TxExecution.Exceptions (txe final) =
         [] ++ [ErrorCodef ErrorCodeInvalidAddress
                  ("CallTx to an address (" +:+ AddressString 77
                   +:+ ") that does not exist")]
    /\ TxExecution.Events (txe final) =
         [] ++ [mkEvent alice
                  (Some (ErrorCodef ErrorCodeInvalidAddress
                           ("CallTx to an address (" +:+ AddressString 77
                            +:+ ") that does not exist")));
                mkEvent 77
                  (Some (ErrorCodef ErrorCodeInvalidAddress
                           ("CallTx to an address (" +:+ AddressString 77
                            +:+ ") that does not exist")))].
Proof.
  apply (Execute_block_no_code_target (context (store 100 []) true toNobody) emptyTxe
           toNobody (prechecked 100 [] true toNobody) (charged toNobody (aliceAcc 100))
           None 77).
  - reflexivity.
  - reflexivity.
  - reflexivity.
  - reflexivity.
Defined.

(** alice calls bob with one byte of code: persist, two invocations with
    the value 15, sync. *)
Lemma Execute_block_invocations_witness :
  let ctx1 := prechecked 100 [x00] true toBob in
  let r1 := firstCall ctx1 (NewState (StateWriter ctx1)) alice bob [x00] (20 - 5) in
  exists rest,
    calls (fst (Execute emptyTxe (PayloadCallTx toBob)
                  (context (store 100 [x00]) true toBob))) =
      [] ++ InvUpdateAccount (charged toBob (aliceAcc 100))
         :: InvCall alice bob [x00] [x01] (20 - 5) 5000
         :: InvCall alice bob (GetCode (vmCache r1) erc20Address) debugData (20 - 5) (vmGas r1)
         :: rest
    /\ (rest = [] \/ rest = [InvSync]).
Proof.
  apply (Execute_block_invocations (context (store 100 [x00]) true toBob) emptyTxe toBob
           (prechecked 100 [x00] true toBob) (charged toBob (aliceAcc 100))
           (Some (bobAcc [x00])) false
           (NewState (StateWriter (prechecked 100 [x00] true toBob))) bob [x00]).
  - reflexivity.
  - reflexivity.
  - exact (ReachesCall (prechecked 100 [x00] true toBob) (charged toBob (aliceAcc 100))
             (Some (bobAcc [x00])) bob (bobAcc [x00]) eq_refl eq_refl ltac:(discriminate)).
  - cbn. lia.
  - reflexivity.
Defined.

(** The toy machine leaves the events and the exceptions as they are. *)
Lemma Mem_Call_appends : @AppendOnly collaborators.
Proof.
  intros params origin txCache x caller callee code input value gas. cbn.
  assert (Hx : vmTxe (Call params origin txCache x caller callee code input value gas)
               = traced x).
  { unfold Call. destruct (gas <? _); [reflexivity|].
    destruct code as [|b code]; [reflexivity|]. destruct b; reflexivity. }
  rewrite Hx. cbn. split; exists []; now rewrite app_nil_r.
Qed.

Lemma Deliver_receipt_append_only_witness :
  let final := fst (Deliver (aliceAcc 95) (Some (bobAcc [x00])) 15
                      (context (store 95 [x00]) true toBob)) in
  (exists evs, TxExecution.Events (txe final) = [] ++ evs)
  /\ (exists exs, TxExecution.Exceptions (txe final) = [] ++ exs).
Proof.
  apply (Deliver_receipt_append_only (context (store 95 [x00]) true toBob) (aliceAcc 95)
           (Some (bobAcc [x00])) 15).
  exact Mem_Call_appends.
Defined.
